(** * Resume-Parser-Langchain: the extraction pipeline of [pdf_extractor.py]

    A shallow embedding of the batch pipeline ([check_multiple_resumes],
    [split_resumes], [process_single_resume], [process_pdf_file],
    [process_multiple_files]) and of the CSV aggregator ([json_to_csv]),
    followed by the properties of its specification.

    Conventions.
    - A Python [str] is a Rocq [string] holding its UTF-8 encoding.
    - A value produced by [json.loads] is a [pyval].
    - Exceptions are instances of Python's class [Exception]; a computation
      that may raise returns a [result].
    - The language model, the transcription service, the directory listing
      and the library functions [json.loads] and [repr] are external: they
      are the fields of the records [PyLib] and [Services], and every
      theorem holds for every value of these records.  The transcription
      service is taken to return the text of the document, a [str].
    - [print], [logging.error] and the progress bar only write to the
      console; they are left out.
    - Paths are those of a POSIX system.  Writing to a file that has been
      opened succeeds: a full disk is outside the model, and a [str] with
      a lone surrogate, which UTF-8 cannot encode, is no [string] here. *)

From Stdlib Require Import List String Ascii ZArith Lia Bool.
From Stdlib Require Import Floats.SpecFloat.
From Stdlib Require Import DecimalString.
Import ListNotations.

Local Open Scope string_scope.
Local Open Scope Z_scope.

Set Warnings "-register-all".

(* ================================================================== *)
(** ** Python values *)

(** The values of [json.loads]: [None], [bool], [int], [float], [str],
    [list] and [dict].  A [dict] keeps its keys in insertion order. *)
Inductive pyval : Type :=
| PNone
| PBool (b : bool)
| PInt (z : Z)
| PFloat (f : spec_float)
| PStr (s : string)
| PList (l : list pyval)
| PDict (d : list (string * pyval)).

(** The exception classes the code can meet.  [JSONDecodeError] is the only
    one an [except] clause of the file names; all are subclasses of
    [Exception]. *)
Inductive exn : Type :=
| JSONDecodeError
| TypeError
| AttributeError
| OSError
| OtherException (name : string).

Inductive result (A : Type) : Type :=
| Ok (a : A)
| Raise (e : exn).

Arguments Ok {A} a.
Arguments Raise {A} e.

Definition is_JSONDecodeError (e : exn) : bool :=
  match e with JSONDecodeError => true | _ => false end.

(* ------------------------------------------------------------------ *)
(** *** Dictionaries

    A Python [dict] with [str] keys, in insertion order.  [d[k] = v]
    replaces the value of an existing key where it stands and appends a new
    key at the end. *)

Module Dict.

Definition t (V : Type) : Type := list (string * V).

Definition empty {V : Type} : t V := [].

Fixpoint get {V : Type} (k : string) (d : t V) : option V :=
  match d with
  | [] => None
  | (k', v) :: d' => if String.eqb k k' then Some v else get k d'
  end.

Fixpoint set {V : Type} (k : string) (v : V) (d : t V) : t V :=
  match d with
  | [] => [(k, v)]
  | (k', v') :: d' =>
      if String.eqb k k' then (k', v) :: d' else (k', v') :: set k v d'
  end.

Definition keys {V : Type} (d : t V) : list string := map fst d.

End Dict.

(* ------------------------------------------------------------------ *)
(** *** Built-in operations on values *)

(** Truth value of a Python object, as tested by [if] and [or]. *)
Definition truthy (v : pyval) : bool :=
  match v with
  | PNone => false
  | PBool b => b
  | PInt z => negb (z =? 0)
  | PFloat (S754_zero _) => false
  | PFloat _ => true
  | PStr s => negb (String.eqb s EmptyString)
  | PList l => match l with [] => false | _ => true end
  | PDict d => match d with [] => false | _ => true end
  end.

Definition is_None (v : pyval) : bool :=
  match v with PNone => true | _ => false end.

(** [a or b] *)
Definition py_or (a b : pyval) : pyval := if truthy a then a else b.

(** [obj.get(key, default)]: only a [dict] has the method. *)
Definition py_get (obj : pyval) (key : string) (default : pyval) : result pyval :=
  match obj with
  | PDict d => Ok (match Dict.get key d with Some v => v | None => default end)
  | _ => Raise AttributeError
  end.

(** [obj[key] = v] with a [str] key: a [dict] is updated, a [list] wants
    integer indices, and the other values support no item assignment. *)
Definition py_setitem (obj : pyval) (key : string) (v : pyval) : result pyval :=
  match obj with
  | PDict d => Ok (PDict (Dict.set key v d))
  | _ => Raise TypeError
  end.

(** The characters of a [str]: a new character starts at every byte that is
    not a UTF-8 continuation byte (0x80..0xBF). *)
Definition is_continuation (c : ascii) : bool :=
  let n := N_of_ascii c in (128 <=? n)%N && (n <? 192)%N.

Fixpoint str_chars_aux (cur : string) (s : string) : list string :=
  match s with
  | EmptyString => [cur]
  | String c s' =>
      if is_continuation c
      then str_chars_aux (cur ++ String c EmptyString) s'
      else cur :: str_chars_aux (String c EmptyString) s'
  end.

Definition str_chars (s : string) : list string :=
  match s with
  | EmptyString => []
  | String c s' => str_chars_aux (String c EmptyString) s'
  end.

(** [iter(obj)] run to the end: the elements of a [list], the characters of
    a [str], the keys of a [dict]; the other values are not iterable. *)
Definition py_iter (obj : pyval) : result (list pyval) :=
  match obj with
  | PList l => Ok l
  | PStr s => Ok (map PStr (str_chars s))
  | PDict d => Ok (map PStr (Dict.keys d))
  | _ => Raise TypeError
  end.

(** [sep.join(parts)] *)
Fixpoint join (sep : string) (parts : list string) : string :=
  match parts with
  | [] => EmptyString
  | [p] => p
  | p :: rest => p ++ sep ++ join sep rest
  end.

(** [s.replace(old, new)] for a one-character [old]. *)
Fixpoint replace_char (old : ascii) (new : string) (s : string) : string :=
  match s with
  | EmptyString => EmptyString
  | String c s' =>
      (if Ascii.eqb c old then new else String c EmptyString)
        ++ replace_char old new s'
  end.

Definition newline : ascii := ascii_of_nat 10.
Definition dquote : string := String (ascii_of_nat 34) EmptyString.
Definition nl : string := String newline EmptyString.

(** [str(z)] for an [int]. *)
Definition str_of_int (z : Z) : string := NilZero.string_of_int (Z.to_int z).

(** [str(obj)].  The text of a [float], a [list] or a [dict] is the work of
    Python's [repr], taken as the parameter [repr_other]. *)
Definition py_str (repr_other : pyval -> string) (v : pyval) : string :=
  match v with
  | PStr s => s
  | PNone => "None"
  | PBool true => "True"
  | PBool false => "False"
  | PInt z => str_of_int z
  | _ => repr_other v
  end.

(* ================================================================== *)
(** ** Effects: external calls with state and exceptions *)

(** What the program asks of the outside. *)
Inductive call : Type :=
| CallMkdir (output_dir : string)
| CallGlob (resume_directory : string)
| CallTranscribe (file_path output_dir : string)
| CallSplit (text : string)
| CallLLM (prompt : string).

(** The result of the splitting call: a [list], or any other object. *)
Inductive split_output : Type :=
| SplitList (segments : list pyval)
| SplitOther.

Section Effects.

(** The state of the outside world (services, file system). *)
Variable W : Type.

(** The world as the program sees it: the outside state and the external
    calls made so far, oldest first. *)
Record world : Type := mkWorld { ext : W; calls : list call }.

(** A computation reads and changes the world and returns or raises.  The
    changes made before an exception stay. *)
Definition M (A : Type) : Type := world -> result A * world.

Definition ret {A : Type} (a : A) : M A := fun w => (Ok a, w).

Definition raise {A : Type} (e : exn) : M A := fun w => (Raise e, w).

Definition bind {A B : Type} (m : M A) (k : A -> M B) : M B :=
  fun w =>
    match m w with
    | (Ok a, w') => k a w'
    | (Raise e, w') => (Raise e, w')
    end.

(** [try: m  except Exception: handler] *)
Definition try_except {A : Type} (m : M A) (handler : exn -> M A) : M A :=
  fun w =>
    match m w with
    | (Ok a, w') => (Ok a, w')
    | (Raise e, w') => handler e w'
    end.

Definition lift {A : Type} (r : result A) : M A := fun w => (r, w).

(** An external call: it is recorded, and the outside answers. *)
Definition external {A : Type} (c : call) (f : W -> result A * W) : M A :=
  fun w =>
    let (r, e') := f (ext w) in
    (r, {| ext := e'; calls := calls w ++ [c] |}).

End Effects.

Arguments mkWorld {W} ext calls.
Arguments ext {W} w.
Arguments calls {W} w.
Arguments ret {W A} a.
Arguments raise {W A} e.
Arguments bind {W A B} m k.
Arguments try_except {W A} m handler.
Arguments lift {W A} r.
Arguments external {W A} c f.

Declare Scope py_scope.
Delimit Scope py_scope with py.
Notation "x <- m ;; k" := (bind m (fun x => k))
  (at level 100, m at next level, right associativity) : py_scope.
Notation "m ;;; k" := (bind m (fun _ => k))
  (at level 100, right associativity) : py_scope.

(* ================================================================== *)
(** ** The prompts *)

Definition unlines (ls : list string) : string := join nl ls.

(** [SPLIT_PROMPT] *)
Definition SPLIT_PROMPT : string :=
  unlines
    [ EmptyString;
      "You are a document analyzer. Your task is to:";
      "1. Determine if this document contains multiple resumes";
      "2. If it does, identify where each resume starts and ends";
      "3. Return the count of resumes found";
      EmptyString;
      "Look for clear indicators like:";
      "- New contact information sections";
      "- Multiple different names";
      "- Distinct education/experience sections";
      "- Page breaks between resumes";
      EmptyString;
      "Return your response as a JSON with:";
      "- " ++ dquote ++ "multiple_resumes" ++ dquote ++ ": boolean";
      "- " ++ dquote ++ "resume_count" ++ dquote ++ ": number";
      EmptyString ].

(** [RESUME_PROMPT], before and after its placeholder [{text}]. *)
Definition RESUME_PROMPT_before : string :=
  unlines
    [ EmptyString;
      "You are a resume parser. Extract the following information from the resume in a structured format:";
      "- Full Name";
      "- Email";
      "- Phone Number";
      "- Education (including institution, degree, graduation year)";
      "- Work Experience (including company names, positions, dates)";
      "- Skills";
      "- Certifications (if any)";
      EmptyString;
      "Resume content:";
      EmptyString ].

Definition RESUME_PROMPT_after : string :=
  unlines
    [ EmptyString;
      EmptyString;
      "Format the output as a JSON object with these fields. Ensure the output is valid JSON format.";
      EmptyString ].

(* ================================================================== *)
(** ** The pipeline *)

(** The library functions the code relies on. *)
Record PyLib : Type := mkPyLib {
  (** [json.loads] on a [str]: a value, [JSONDecodeError] when the text is
      not JSON, or another exception of the library. *)
  json_loads : string -> result pyval;
  (** [repr] of a [float], a [list] or a [dict]. *)
  repr_other : pyval -> string
}.

(** The external collaborators of the pipeline, over a world state [W]. *)
Record Services (W : Type) : Type := mkServices {
  lib :> PyLib;
  (** [Path(output_dir).mkdir(parents=True, exist_ok=True)] *)
  mkdir : string -> W -> result unit * W;
  (** [Path(resume_directory).glob("*.pdf")], as strings. *)
  glob_pdf : string -> W -> result (list string) * W;
  (** The transcription service: [zerox(file_path=..., output_dir=...)],
      returning the text of the document. *)
  zerox_pdf : string -> string -> W -> result string * W;
  (** The splitting call: [zerox(text=..., return_segments=True)]. *)
  zerox_split : string -> W -> result split_output * W;
  (** [llm.invoke(messages).content] for a single user message. *)
  llm_invoke : string -> W -> result string * W
}.

Arguments mkServices {W} _ _ _ _ _ _.
Arguments lib {W} _.
Arguments mkdir {W} _ _ _.
Arguments glob_pdf {W} _ _ _.
Arguments zerox_pdf {W} _ _ _ _.
Arguments zerox_split {W} _ _ _.
Arguments llm_invoke {W} _ _ _.

Section Pipeline.

Context {W : Type}.
Variable svc : Services W.

Local Open Scope py_scope.

(** [prompt.format_messages(text=text)]: the template with [str(text)] in
    place of [{text}]. *)
Definition format_messages (text : pyval) : string :=
  RESUME_PROMPT_before ++ py_str (repr_other svc) text ++ RESUME_PROMPT_after.

(** The default of the detector. *)
Definition default_detection : pyval :=
  PDict [("multiple_resumes", PBool false); ("resume_count", PInt 1)].

(** [check_multiple_resumes]: the call to the model is outside the [try];
    only [json.JSONDecodeError] is handled. *)
Definition check_multiple_resumes (text : string) : M W pyval :=
  response <- external (CallLLM (SPLIT_PROMPT ++ nl ++ nl ++ text))
                       (llm_invoke svc (SPLIT_PROMPT ++ nl ++ nl ++ text)) ;;
  match json_loads svc response with
  | Ok v => ret v
  | Raise e => if is_JSONDecodeError e then ret default_detection else raise e
  end.

(** [split_resumes] *)
Definition split_resumes (text : string) : M W (list pyval) :=
  try_except
    (split_result <- external (CallSplit text) (zerox_split svc text) ;;
     ret (match split_result with
          | SplitList l => l
          | SplitOther => [PStr text]
          end))
    (fun _ => ret [PStr text]).

(** [process_single_resume] *)
Definition process_single_resume (text : pyval) : M W pyval :=
  try_except
    (response <- external (CallLLM (format_messages text))
                          (llm_invoke svc (format_messages text)) ;;
     match json_loads svc response with
     | Ok v => ret v
     | Raise e => if is_JSONDecodeError e then ret (PDict []) else raise e
     end)
    (fun _ => ret (PDict [])).

(** The loop of [process_pdf_file] over [enumerate(resume_texts, 1)],
    from index [idx] on, with the records collected so far. *)
Fixpoint process_segments (idx : Z) (resume_texts : list pyval)
         (results : list pyval) : M W (list pyval) :=
  match resume_texts with
  | [] => ret results
  | resume_text :: rest =>
      result <- process_single_resume resume_text ;;
      result' <- lift (py_setitem result "resume_index" (PInt idx)) ;;
      process_segments (idx + 1) rest (results ++ [result'])
  end.

(** The choice of the segments in [process_pdf_file]. *)
Definition resume_texts_of (check_result : pyval) (extracted_text : string)
  : M W (list pyval) :=
  multiple <- lift (py_get check_result "multiple_resumes" (PBool false)) ;;
  if truthy multiple
  then split_resumes extracted_text
  else ret [PStr extracted_text].

(** The body of the [try] of [process_pdf_file]. *)
Definition process_pdf_file_body (file_path output_dir : string)
  : M W (list pyval) :=
  extracted_text <- external (CallTranscribe file_path output_dir)
                             (zerox_pdf svc file_path output_dir) ;;
  check_result <- check_multiple_resumes extracted_text ;;
  resume_texts <- resume_texts_of check_result extracted_text ;;
  process_segments 1 resume_texts [].

(** [process_pdf_file] *)
Definition process_pdf_file (file_path output_dir : string) : M W (list pyval) :=
  try_except (process_pdf_file_body file_path output_dir)
             (fun _ => ret [PDict []]).

(** The loop of [process_multiple_files] over [pdf_files]. *)
Fixpoint process_files (pdf_files : list string) (output_dir : string)
         (results : Dict.t (list pyval)) : M W (Dict.t (list pyval)) :=
  match pdf_files with
  | [] => ret results
  | pdf_file :: rest =>
      file_results <- process_pdf_file pdf_file output_dir ;;
      process_files rest output_dir (Dict.set pdf_file file_results results)
  end.

(** [process_multiple_files] *)
Definition process_multiple_files (resume_directory output_dir : string)
  : M W (Dict.t (list pyval)) :=
  external (CallMkdir output_dir) (mkdir svc output_dir) ;;;
  pdf_files <- external (CallGlob resume_directory) (glob_pdf svc resume_directory) ;;
  process_files pdf_files output_dir Dict.empty.

(** *** Vocabulary of the properties *)

(** The world in which the [k]-th segment (from 0) of a file is taken up:
    the segments before it have been processed. *)
Fixpoint world_before_segment (k : nat) (resume_texts : list pyval)
         (w : world W) : world W :=
  match k, resume_texts with
  | S k', resume_text :: rest =>
      world_before_segment k' rest (snd (process_single_resume resume_text w))
  | _, _ => w
  end.

(** The world in which the [k]-th file (from 0) of a batch is taken up. *)
Fixpoint world_before_file (k : nat) (pdf_files : list string)
         (output_dir : string) (w : world W) : world W :=
  match k, pdf_files with
  | S k', pdf_file :: rest =>
      world_before_file k' rest output_dir
                        (snd (process_pdf_file pdf_file output_dir w))
  | _, _ => w
  end.

(** The answer of the model to the extraction prompt of a segment, when
    it is JSON at all, is a JSON object. *)
Definition answers_with_object (resume_text : pyval) (w : world W) : Prop :=
  forall response e' v,
    llm_invoke svc (format_messages resume_text) (ext w) = (Ok response, e') ->
    json_loads svc response = Ok v ->
    exists d, v = PDict d.

(** The same for every segment of a file, each in the world it is taken
    up in. *)
Fixpoint answers_with_objects (resume_texts : list pyval) (w : world W)
  : Prop :=
  match resume_texts with
  | [] => True
  | resume_text :: rest =>
      answers_with_object resume_text w /\
      answers_with_objects rest (snd (process_single_resume resume_text w))
  end.


(** The part of [process_pdf_file] before its loop: transcription,
    detection and the choice of the segments. *)
Definition segments_of_file (file_path output_dir : string)
  : M W (list pyval) :=
  extracted_text <- external (CallTranscribe file_path output_dir)
                             (zerox_pdf svc file_path output_dir) ;;
  check_result <- check_multiple_resumes extracted_text ;;
  resume_texts_of check_result extracted_text.

(** That part goes through and gives [resume_texts], leaving the world
    [w']. *)
Definition file_segments (file_path output_dir : string) (w : world W)
           (resume_texts : list pyval) (w' : world W) : Prop :=
  segments_of_file file_path output_dir w = (Ok resume_texts, w').

(** The transcription of a file raises. *)
Definition transcription_raises (file_path output_dir : string) (w : world W)
  : Prop :=
  exists e e', zerox_pdf svc file_path output_dir (ext w) = (Raise e, e').

(** The transcription of a file goes through and its detection raises:
    the call to the model raises, or [json.loads] raises something else
    than [JSONDecodeError]. *)
Definition detection_raises (file_path output_dir : string) (w : world W)
  : Prop :=
  exists extracted_text w1 e w2,
    external (CallTranscribe file_path output_dir)
             (zerox_pdf svc file_path output_dir) w = (Ok extracted_text, w1) /\
    check_multiple_resumes extracted_text w1 = (Raise e, w2).

(** An exception reaches the [except] clause of [process_pdf_file]. *)
Definition reaches_file_boundary (file_path output_dir : string)
           (w : world W) : Prop :=
  exists e w', process_pdf_file_body file_path output_dir w = (Raise e, w').

End Pipeline.

(* ================================================================== *)
(** ** The record aggregator *)

(** A CSV record, as handed to [writer.writerow]: one cell per column.  The
    file is kept as the sequence of the records written to it; the quoting
    of cells is the [csv] module's. *)
Definition row : Type := list string.

(** The files of the output directories, by path: a missing key is a file
    that does not exist.  [open_fails] tells for which paths [open] raises
    [OSError]. *)
Record filesystem : Type := mkFS {
  files : Dict.t (list row);
  open_fails : string -> bool
}.

(** The components of a path, as [pathlib] keeps them: the texts between
    the slashes, without the empty ones and the single dots. *)
Fixpoint split_slash (cur : string) (s : string) : list string :=
  match s with
  | EmptyString => [cur]
  | String c s' =>
      if Ascii.eqb c "/" then cur :: split_slash EmptyString s'
      else split_slash (cur ++ String c EmptyString) s'
  end.

Definition path_parts (s : string) : list string :=
  filter (fun part => negb (String.eqb part EmptyString || String.eqb part "."))
         (split_slash EmptyString s).

Fixpoint leading_slashes (s : string) : nat :=
  match s with
  | String c s' => if Ascii.eqb c "/" then S (leading_slashes s') else O
  | EmptyString => O
  end.

(** The root of a path: none for a relative path, two slashes when the
    path starts with exactly two, one slash otherwise. *)
Definition path_root (s : string) : string :=
  match leading_slashes s with
  | O => EmptyString
  | 2%nat => "//"
  | _ => "/"
  end.

(** [Path(output_dir) / "parsed_resumes.csv"], as the string handed to
    [open]: the root and the components of [output_dir], then the file
    name. *)
Definition csv_path (output_dir : string) : string :=
  path_root output_dir
    ++ join "/" (path_parts output_dir ++ ["parsed_resumes.csv"]).

Definition HEADER : row := ["Name"; "Email"; "Mobile"; "Experience"; "Skills"].

(** Which of its three messages a call of [json_to_csv] prints. *)
Inductive outcome : Type :=
| Converted          (* "Successfully converted JSON to CSV at: ..." *)
| ErrorParsingJSON   (* "Error parsing JSON: ..." *)
| ErrorConverting (e : exn).   (* "Error converting to CSV: ..." *)

Definition and_then {A B : Type} (r : result A) (k : A -> result B) : result B :=
  match r with
  | Ok a => k a
  | Raise e => Raise e
  end.

Notation "x <-- r ;; k" := (and_then r (fun x => k))
  (at level 100, r at next level, right associativity) : py_scope.

Section Aggregator.

Variable L : PyLib.

Local Open Scope py_scope.

(** The cell of the skills: lines 179 to 182. *)
Definition skills_cell (resume : pyval) : result string :=
  skills <-- py_get resume "skills" (PList []) ;;
  let skills := if is_None skills then PList [] else skills in
  elements <-- py_iter skills ;;
  Ok (join ";" (map (py_str (repr_other L))
                    (filter (fun skill => negb (is_None skill)) elements))).

(** The cell of the experience: lines 185 to 189. *)
Definition experience_cell (resume : pyval) : result string :=
  experience <-- py_get resume "experience" (PStr EmptyString) ;;
  Ok (if negb (is_None experience)
      then replace_char newline " " (py_str (repr_other L) experience)
      else EmptyString).

(** [str(resume.get(key, '') or '')] *)
Definition text_cell (resume : pyval) (key : string) : result string :=
  v <-- py_get resume key (PStr EmptyString) ;;
  Ok (py_str (repr_other L) (py_or v (PStr EmptyString))).

(** The record of one candidate, in the order the code evaluates it. *)
Definition make_row (resume : pyval) : result row :=
  skills_str <-- skills_cell resume ;;
  experience <-- experience_cell resume ;;
  name <-- text_cell resume "name" ;;
  email <-- text_cell resume "email" ;;
  mobile <-- text_cell resume "mobile" ;;
  Ok [name; email; mobile; experience; skills_str].

(** The loop over the candidates: every record is written before the next
    candidate is looked at, and an exception leaves the records written
    so far in the file. *)
Fixpoint write_rows (resumes : list pyval) (f : list row)
  : result unit * list row :=
  match resumes with
  | [] => (Ok tt, f)
  | resume :: rest =>
      match make_row resume with
      | Ok r => write_rows rest (f ++ [r])
      | Raise e => (Raise e, f)
      end
  end.

(** The [with open(csv_file, 'a', ...)] block on the records [f] of the
    opened file. *)
Definition write_csv (file_exists : bool) (parsed_json : pyval) (f : list row)
  : result unit * list row :=
  let f := if negb file_exists then (f ++ [HEADER])%list else f in
  match py_iter parsed_json with
  | Ok resumes => write_rows resumes f
  | Raise e => (Raise e, f)
  end.

(** [json_to_csv]: it returns nothing and raises nothing; the result is
    the message printed and the file system after the call. *)
Definition json_to_csv (json_content output_dir : string) (fs : filesystem)
  : outcome * filesystem :=
  match json_loads L json_content with
  | Raise e =>
      (if is_JSONDecodeError e then ErrorParsingJSON else ErrorConverting e, fs)
  | Ok parsed_json =>
      let csv_file := csv_path output_dir in
      let file_exists :=
        match Dict.get csv_file (files fs) with Some _ => true | None => false end in
      if open_fails fs csv_file then (ErrorConverting OSError, fs)
      else
        let f := match Dict.get csv_file (files fs) with
                 | Some rows => rows
                 | None => []
                 end in
        let (r, f') := write_csv file_exists parsed_json f in
        (match r with Ok _ => Converted | Raise e => ErrorConverting e end,
         {| files := Dict.set csv_file f' (files fs);
            open_fails := open_fails fs |})
  end.

(** *** Vocabulary of the properties *)

(** The records [write_rows] appends: those of the candidates before the
    first one whose record cannot be made. *)
Fixpoint data_rows (resumes : list pyval) : list row :=
  match resumes with
  | [] => []
  | resume :: rest =>
      match make_row resume with
      | Ok r => r :: data_rows rest
      | Raise _ => []
      end
  end.

(** The data records a call writes for the parsed content. *)
Definition batch_rows (parsed_json : pyval) : list row :=
  match py_iter parsed_json with
  | Ok resumes => data_rows resumes
  | Raise _ => []
  end.

(** The records of the destination, given those [before], after a call whose content is JSON
    and whose [open] goes through. *)
Definition rows_after (before : option (list row)) (parsed_json : pyval)
  : list row :=
  match before with
  | Some rows => (rows ++ batch_rows parsed_json)%list
  | None => HEADER :: batch_rows parsed_json
  end.

End Aggregator.

(* ================================================================== *)
(** ** A reference reader for a fragment of JSON

    The examples below need a concrete [json.loads].  [MiniJson.loads] reads
    the fragment of JSON made of objects, arrays, strings with the
    one-letter escapes, integers, [true], [false] and [null], as
    [json.loads] does.  A text it recognises as leaving the fragment (a
    number with a fraction or an exponent, a [\u] escape, [NaN],
    [Infinity]) raises [OtherException] instead of being read. *)

Module MiniJson.

Inductive parse (A : Type) : Type :=
| Parsed (a : A) (rest : string)
| Invalid
| Unsupported.

Arguments Parsed {A} a rest.
Arguments Invalid {A}.
Arguments Unsupported {A}.

Definition is_ws (c : ascii) : bool :=
  let n := nat_of_ascii c in
  (Nat.eqb n 32 || Nat.eqb n 9 || Nat.eqb n 10 || Nat.eqb n 13)%bool.

Fixpoint skip_ws (s : string) : string :=
  match s with
  | String c s' => if is_ws c then skip_ws s' else s
  | EmptyString => s
  end.

Definition is_digit (c : ascii) : bool :=
  let n := nat_of_ascii c in (Nat.leb 48 n && Nat.leb n 57)%bool.

Definition digit_val (c : ascii) : Z := Z.of_nat (nat_of_ascii c) - 48.

(** The digits at the head of [s], read onto [acc]. *)
Fixpoint read_digits (acc : Z) (s : string) : Z * string :=
  match s with
  | String c s' =>
      if is_digit c then read_digits (10 * acc + digit_val c) s' else (acc, s)
  | EmptyString => (acc, s)
  end.

Definition starts_float (s : string) : bool :=
  match s with
  | String c _ =>
      (Ascii.eqb c "." || Ascii.eqb c "e" || Ascii.eqb c "E")%bool
  | EmptyString => false
  end.

(** An integer without its sign: [0], or a digit other than [0] followed
    by digits. *)
Definition read_nat (s : string) : parse Z :=
  match s with
  | String c s' =>
      if Ascii.eqb c "0" then
        if starts_float s' then Unsupported else Parsed 0 s'
      else if is_digit c then
        let (n, rest) := read_digits (digit_val c) s' in
        if starts_float rest then Unsupported else Parsed n rest
      else Invalid
  | EmptyString => Invalid
  end.

(** The characters of a string after its opening quote, onto [acc]. *)
Fixpoint read_string (acc : string) (s : string) : parse string :=
  match s with
  | EmptyString => Invalid
  | String c s' =>
      if Ascii.eqb c (ascii_of_nat 34) then Parsed acc s'
      else if Ascii.eqb c (ascii_of_nat 92) then
        match s' with
        | EmptyString => Invalid
        | String e s'' =>
            let put (n : nat) :=
              read_string (acc ++ String (ascii_of_nat n) EmptyString) s'' in
            if Ascii.eqb e (ascii_of_nat 34) then put 34%nat
            else if Ascii.eqb e (ascii_of_nat 92) then put 92%nat
            else if Ascii.eqb e "/" then put 47%nat
            else if Ascii.eqb e "b" then put 8%nat
            else if Ascii.eqb e "f" then put 12%nat
            else if Ascii.eqb e "n" then put 10%nat
            else if Ascii.eqb e "r" then put 13%nat
            else if Ascii.eqb e "t" then put 9%nat
            else if Ascii.eqb e "u" then Unsupported
            else Invalid
        end
      else if Nat.ltb (nat_of_ascii c) 32 then Invalid
      else read_string (acc ++ String c EmptyString) s'
  end.

Definition literal (word : string) (v : pyval) (s : string) : parse pyval :=
  if String.prefix word s
  then Parsed v (substring (String.length word) (String.length s) s)
  else Invalid.

(** [value] reads a value at the head of [s]; [elements] the rest of an
    array whose next element starts [s]; [members] the rest of an object
    whose next key starts [s]. *)
Fixpoint value (fuel : nat) (s : string) {struct fuel} : parse pyval :=
  match fuel with
  | O => Unsupported
  | S fuel' =>
      match s with
      | EmptyString => Invalid
      | String c s' =>
          if Ascii.eqb c "{" then
            match skip_ws s' with
            | String c' s'' =>
                if Ascii.eqb c' "}" then Parsed (PDict []) s''
                else members fuel' (String c' s'') []
            | EmptyString => Invalid
            end
          else if Ascii.eqb c "[" then
            match skip_ws s' with
            | String c' s'' =>
                if Ascii.eqb c' "]" then Parsed (PList []) s''
                else elements fuel' (String c' s'') []
            | EmptyString => Invalid
            end
          else if Ascii.eqb c (ascii_of_nat 34) then
            match read_string EmptyString s' with
            | Parsed str rest => Parsed (PStr str) rest
            | Invalid => Invalid
            | Unsupported => Unsupported
            end
          else if Ascii.eqb c "-" then
            if String.prefix "Infinity" s' then Unsupported
            else
              match read_nat s' with
              | Parsed n rest => Parsed (PInt (- n)) rest
              | Invalid => Invalid
              | Unsupported => Unsupported
              end
          else if is_digit c then
            match read_nat s with
            | Parsed n rest => Parsed (PInt n) rest
            | Invalid => Invalid
            | Unsupported => Unsupported
            end
          else if Ascii.eqb c "n" then literal "null" PNone s
          else if Ascii.eqb c "t" then literal "true" (PBool true) s
          else if Ascii.eqb c "f" then literal "false" (PBool false) s
          else if (String.prefix "NaN" s || String.prefix "Infinity" s)%bool
               then Unsupported
          else Invalid
      end
  end

with elements (fuel : nat) (s : string) (acc : list pyval) {struct fuel}
  : parse pyval :=
  match fuel with
  | O => Unsupported
  | S fuel' =>
      match value fuel' s with
      | Parsed v rest =>
          match skip_ws rest with
          | String c rest' =>
              if Ascii.eqb c "]" then Parsed (PList (acc ++ [v])) rest'
              else if Ascii.eqb c ","
                   then elements fuel' (skip_ws rest') (acc ++ [v])
              else Invalid
          | EmptyString => Invalid
          end
      | Invalid => Invalid
      | Unsupported => Unsupported
      end
  end

with members (fuel : nat) (s : string) (acc : Dict.t pyval) {struct fuel}
  : parse pyval :=
  match fuel with
  | O => Unsupported
  | S fuel' =>
      match s with
      | String q s' =>
          if Ascii.eqb q (ascii_of_nat 34) then
            match read_string EmptyString s' with
            | Parsed key rest =>
                match skip_ws rest with
                | String colon rest' =>
                    if Ascii.eqb colon ":" then
                      match value fuel' (skip_ws rest') with
                      | Parsed v rest'' =>
                          match skip_ws rest'' with
                          | String c rest3 =>
                              if Ascii.eqb c "}"
                              then Parsed (PDict (Dict.set key v acc)) rest3
                              else if Ascii.eqb c ","
                              then members fuel' (skip_ws rest3)
                                           (Dict.set key v acc)
                              else Invalid
                          | EmptyString => Invalid
                          end
                      | Invalid => Invalid
                      | Unsupported => Unsupported
                      end
                    else Invalid
                | EmptyString => Invalid
                end
            | Invalid => Invalid
            | Unsupported => Unsupported
            end
          else Invalid
      | EmptyString => Invalid
      end
  end.

Definition loads (s : string) : result pyval :=
  match value (2 * String.length s + 2) (skip_ws s) with
  | Parsed v rest =>
      match skip_ws rest with
      | EmptyString => Ok v
      | String _ _ => Raise JSONDecodeError
      end
  | Invalid => Raise JSONDecodeError
  | Unsupported => Raise (OtherException "outside the fragment")
  end.

End MiniJson.

(** A JSON string literal for a text without quotes or backslashes. *)
Definition q (s : string) : string := dquote ++ s ++ dquote.

(* ================================================================== *)
(** ** A scripted instance of the services

    The world holds the PDF files of the resume directory, the files the
    transcription service cannot read, the answers the model will give, in
    order, and the answer of the splitting call. *)

Module Demo.

Record state : Type := mkState {
  directory : list string;
  unreadable : list string;
  answers : list (result string);
  splitting : result split_output
}.

Definition pylib : PyLib :=
  {| json_loads := MiniJson.loads;
     repr_other := fun _ => "<object>" |}.

Definition transcribe (file_path output_dir : string) (st : state)
  : result string * state :=
  if existsb (String.eqb file_path) (unreadable st)
  then (Raise OSError, st)
  else (Ok ("text of " ++ file_path), st).

Definition invoke (prompt : string) (st : state) : result string * state :=
  match answers st with
  | [] => (Raise (OtherException "no answer"), st)
  | a :: rest =>
      (a, {| directory := directory st; unreadable := unreadable st;
             answers := rest; splitting := splitting st |})
  end.

Definition services : Services state :=
  {| lib := pylib;
     mkdir := fun _ st => (Ok tt, st);
     glob_pdf := fun _ st => (Ok (directory st), st);
     zerox_pdf := transcribe;
     zerox_split := fun _ st => (splitting st, st);
     llm_invoke := invoke |}.

Definition start (st : state) : world state := mkWorld st [].

Definition no_files : filesystem :=
  {| files := Dict.empty; open_fails := fun _ => false |}.

(** *** Scenarios *)

(** A detector answer announcing three resumes. *)
Definition three_resumes : string :=
  "{" ++ q "multiple_resumes" ++ ": true, " ++ q "resume_count" ++ ": 3}".

(** A candidate array with one candidate. *)
Definition one_candidate : string :=
  "[{" ++ q "name" ++ ": " ++ q "Ada" ++ ", " ++ q "skills" ++ ": ["
       ++ q "Python" ++ ", null, " ++ q "Go" ++ "]}]".

(** The detector is answered with a text that is not JSON. *)
Definition detector_not_json : state :=
  mkState ["a.pdf"] [] [Ok "not json"] (Ok SplitOther).

(** The splitting call raises. *)
Definition splitter_raises : state :=
  mkState ["a.pdf"] [] [] (Raise (OtherException "boom")).

(** The detector announces three resumes and the splitting call returns
    two segments. *)
Definition three_announced_two_split : state :=
  mkState ["a.pdf"] [] [Ok three_resumes]
          (Ok (SplitList [PStr "r1"; PStr "r2"])).

(** Two segments: the first is answered with a text that is not JSON,
    the second with an empty object. *)
Definition second_answer_object : state :=
  mkState ["a.pdf"] [] [Ok three_resumes; Ok "not json"; Ok "{}"]
          (Ok (SplitList [PStr "r1"; PStr "r2"])).

(** Two segments: the first is answered with a text that is not JSON,
    the second with a JSON array. *)
Definition second_answer_array : state :=
  mkState ["a.pdf"] [] [Ok three_resumes; Ok "not json"; Ok "[]"]
          (Ok (SplitList [PStr "r1"; PStr "r2"])).

(** One resume; the call to the model raises in the extraction. *)
Definition extractor_raises : state :=
  mkState ["a.pdf"] [] [Ok "not json"; Raise (OtherException "timeout")]
          (Ok SplitOther).

(** Two files, the first of which cannot be transcribed. *)
Definition first_unreadable : state :=
  mkState ["a.pdf"; "b.pdf"] ["a.pdf"] [Ok "not json"; Ok "{}"]
          (Ok SplitOther).

(** The world of [second_answer_object] once the segments of [a.pdf] are
    chosen. *)
Definition segments_chosen : world state :=
  snd (segments_of_file services "a.pdf" "out" (start second_answer_object)).

(** A destination holding the header and one record. *)
Definition one_record_written : filesystem :=
  {| files := [(csv_path "out", [HEADER; ["Ada"; "a@b.c"; "1"; "5 years"; "Go"]])];
     open_fails := fun _ => false |}.

End Demo.

(* ================================================================== *)
(** ** Further vocabulary for the pipeline *)

Definition is_transcribe (c : call) : bool :=
  match c with CallTranscribe _ _ => true | _ => false end.

Section PipelineVocabulary.

Context {W : Type}.
Variable svc : Services W.

(** The calls to the model that extract the segments, one per segment. *)
Definition extraction_calls (resume_texts : list pyval) : list call :=
  map (fun resume_text => CallLLM (format_messages svc resume_text)) resume_texts.

(** A computation that makes no transcription call. *)
Definition no_transcription {A : Type} (m : M W A) : Prop :=
  forall w, exists extra,
    calls (snd (m w)) = (calls w ++ extra)%list /\
    filter is_transcribe extra = [].

End PipelineVocabulary.

(** A record with one cell per column of the header. *)
Definition five_cells (r : row) : Prop := List.length r = 5%nat.

(* ================================================================== *)
(** ** The second pass over the markdown artifacts *)

(** What [convert_md_to_json] asks of the outside, over a state [W]. *)
Record MdServices (W : Type) : Type := mkMdServices {
  md_lib : PyLib;
  (** [open(file_path, 'r', encoding='utf-8')] followed by [f.read()]. *)
  read_text : string -> W -> result string * W;
  (** [anthropic.messages.create(...)] for a single user message: the
      content blocks of the response, each with its [text] when it has
      one. *)
  messages_create : string -> W -> result (list (option string)) * W;
  (** [str.strip()] *)
  str_strip : string -> string
}.

Arguments md_lib {W} _.
Arguments read_text {W} _ _ _.
Arguments messages_create {W} _ _ _.
Arguments str_strip {W} _ _.

Definition indent8 : string := "        ".

(** The f-string [extraction_prompt], before and after [{md_content}]. *)
Definition extraction_prompt_before : string :=
  unlines
    [ EmptyString;
      indent8 ++ "You are a resume parser. The markdown content contains multiple candidate resumes. For each candidate, extract:";
      indent8 ++ "- Full Name";
      indent8 ++ "- Email";
      indent8 ++ "- Mobile/Phone Number";
      indent8 ++ "- Experience";
      indent8 ++ "- Skills";
      EmptyString;
      indent8 ++ "Format the output as a JSON array where each object represents a candidate with these fields:";
      indent8 ++ "- " ++ q "name" ++ ": string";
      indent8 ++ "- " ++ q "email" ++ ": string";
      indent8 ++ "- " ++ q "mobile" ++ ": string";
      indent8 ++ "- " ++ q "experience" ++ ": string";
      indent8 ++ "- " ++ q "skills" ++ ": array of strings";
      EmptyString;
      indent8 ++ "Example format:";
      indent8 ++ "[";
      indent8 ++ "    {";
      indent8 ++ "        " ++ q "name" ++ ": " ++ q "John Doe" ++ ",";
      indent8 ++ "        " ++ q "email" ++ ": " ++ q "john@email.com" ++ ",";
      indent8 ++ "        " ++ q "mobile" ++ ": " ++ q "+1-555-0123" ++ ",";
      indent8 ++ "        " ++ q "experience" ++ ": " ++ q "5 years" ++ ",";
      indent8 ++ "        " ++ q "skills" ++ ": [" ++ q "Python" ++ ", "
              ++ q "JavaScript" ++ ", " ++ q "AWS" ++ "]";
      indent8 ++ "    }";
      indent8 ++ "]";
      indent8;
      indent8 ++ "Here's the Markdown content to parse:";
      indent8 ].

Definition extraction_prompt_after : string :=
  unlines
    [ EmptyString;
      EmptyString;
      indent8 ++ "Return only the JSON array, ensure it's valid JSON format.";
      indent8 ].

Definition extraction_prompt (md_content : string) : string :=
  extraction_prompt_before ++ md_content ++ extraction_prompt_after.

(** Which way a call of [convert_md_to_json] goes: it reaches
    [json_to_csv], or it prints "Error processing file". *)
Inductive md_outcome : Type :=
| Aggregated (o : outcome)
| ErrorProcessingFile (e : exn).

Section MarkdownPass.

Context {W : Type}.
Variable md : MdServices W.

(** [response.content[0].text] *)
Definition first_text (blocks : list (option string)) : result string :=
  match blocks with
  | [] => Raise (OtherException "IndexError")
  | None :: _ => Raise AttributeError
  | Some text :: _ => Ok text
  end.

(** [convert_md_to_json]: it returns nothing and raises nothing; the
    result is the way it went, the outside state and the file system of
    the aggregator after the call. *)
Definition convert_md_to_json (file_path output_dir : string)
           (x : W) (fs : filesystem) : md_outcome * W * filesystem :=
  match read_text md file_path x with
  | (Raise e, x1) => (ErrorProcessingFile e, x1, fs)
  | (Ok md_content, x1) =>
      match messages_create md (extraction_prompt md_content) x1 with
      | (Raise e, x2) => (ErrorProcessingFile e, x2, fs)
      | (Ok blocks, x2) =>
          match first_text blocks with
          | Raise e => (ErrorProcessingFile e, x2, fs)
          | Ok text =>
              let json_content := str_strip md text in
              let (o, fs') := json_to_csv (md_lib md) json_content output_dir fs in
              (Aggregated o, x2, fs')
          end
      end
  end.





End MarkdownPass.

(** A scripted instance: the markdown files by path, and the answers of
    the API in order. *)
Module DemoMd.

Record state : Type := mkState {
  markdown : Dict.t string;
  replies : list (result (list (option string)))
}.

Definition read (file_path : string) (st : state) : result string * state :=
  match Dict.get file_path (markdown st) with
  | Some text => (Ok text, st)
  | None => (Raise OSError, st)
  end.

Definition create (prompt : string) (st : state)
  : result (list (option string)) * state :=
  match replies st with
  | [] => (Raise (OtherException "no reply"), st)
  | r :: rest => (r, {| markdown := markdown st; replies := rest |})
  end.

(** [strip] for the replies of the scenarios: the white space at both
    ends, as [MiniJson.skip_ws] sees it. *)
Fixpoint rstrip (s : string) : string :=
  match s with
  | EmptyString => EmptyString
  | String c s' =>
      match rstrip s' with
      | EmptyString => if MiniJson.is_ws c then EmptyString else String c EmptyString
      | t => String c t
      end
  end.

Definition services : MdServices state :=
  {| md_lib := Demo.pylib;
     read_text := read;
     messages_create := create;
     str_strip := fun s => rstrip (MiniJson.skip_ws s) |}.

(** One markdown file and an API that answers with a candidate array. *)
Definition one_file : state :=
  mkState [("out/a.md", "# Ada")]
          [Ok [Some (" " ++ Demo.one_candidate ++ nl)]].


End DemoMd.

(** Further scenarios for the pipeline. *)
Module DemoMore.

Import Demo.

(** The detector is answered with a JSON array. *)
Definition detector_answers_array : state :=
  mkState ["a.pdf"] [] [Ok "[]"] (Ok SplitOther).

(** The detector announces several resumes and the splitting call returns
    no segment. *)
Definition nothing_split : state :=
  mkState ["a.pdf"] [] [Ok three_resumes] (Ok (SplitList [])).

(** The call to the model raises in the detection. *)
Definition detector_raises : state :=
  mkState ["a.pdf"] [] [Raise (OtherException "timeout")] (Ok SplitOther).

(** An answer of the extractor with a name and an index of its own. *)
Definition named_answer : string :=
  "{" ++ q "name" ++ ": " ++ q "Ada" ++ ", " ++ q "resume_index" ++ ": 7}".

(** One resume, answered with [named_answer]. *)
Definition one_named : state :=
  mkState ["a.pdf"] [] [Ok "not json"; Ok named_answer] (Ok SplitOther).

(** The worlds once the segments of [a.pdf] are chosen. *)
Definition named_chosen : world state :=
  snd (segments_of_file services "a.pdf" "out" (start one_named)).

Definition array_chosen : world state :=
  snd (segments_of_file services "a.pdf" "out" (start second_answer_array)).

(** The services with an output directory that cannot be made. *)
Definition locked : Services state :=
  mkServices pylib
             (fun _ st => (Raise OSError, st))
             (glob_pdf services) (zerox_pdf services)
             (zerox_split services) (llm_invoke services).

End DemoMore.

(** ** A reader with the limit of CPython on integers

    Since CPython 3.11 the conversion of an integer literal of more than
    4300 digits raises [ValueError]; [json.loads] meets the limit when it
    converts a number, before it looks at what follows the number.
    [LimitedJson.loads] is [MiniJson.loads] with this limit for a number
    at the head of the text. *)

Module LimitedJson.

Definition max_str_digits : nat := 4300.

Fixpoint count_digits (s : string) : nat :=
  match s with
  | String c s' => if MiniJson.is_digit c then S (count_digits s') else O
  | EmptyString => O
  end.

Fixpoint drop_digits (s : string) : string :=
  match s with
  | String c s' => if MiniJson.is_digit c then drop_digits s' else s
  | EmptyString => s
  end.

(** The text starts with an integer, not a float, of too many digits. *)
Definition over_long_integer (s : string) : bool :=
  let unsigned :=
    match s with
    | String c s' => if Ascii.eqb c "-" then s' else s
    | EmptyString => s
    end in
  match unsigned with
  | String c _ =>
      (negb (Ascii.eqb c "0")
       && Nat.ltb max_str_digits (count_digits unsigned)
       && negb (MiniJson.starts_float (drop_digits unsigned)))%bool
  | EmptyString => false
  end.

Definition loads (s : string) : result pyval :=
  if over_long_integer (MiniJson.skip_ws s)
  then Raise (OtherException "ValueError")
  else MiniJson.loads s.

(** [n] times the digit 1. *)
Fixpoint ones (n : nat) : string :=
  match n with
  | O => EmptyString
  | S n' => String "1" (ones n')
  end.

(** A text that is not JSON: 5000 digits followed by a word. *)
Definition long_number_oops : string := ones 5000 ++ " oops".

Definition pylib : PyLib :=
  {| json_loads := loads; repr_other := repr_other Demo.pylib |}.

Definition services : Services Demo.state :=
  mkServices pylib
             (mkdir Demo.services) (glob_pdf Demo.services)
             (zerox_pdf Demo.services) (zerox_split Demo.services)
             (llm_invoke Demo.services).

(** The detector is answered with [long_number_oops]. *)
Definition detector_long_number : Demo.state :=
  Demo.mkState ["a.pdf"] [] [Ok long_number_oops] (Ok SplitOther).

End LimitedJson.

(* ================================================================== *)
(** * Properties *)

(** ** Dictionaries *)

Lemma dict_get_set_same {V : Type} (k : string) (v : V) (d : Dict.t V) :
  Dict.get k (Dict.set k v d) = Some v.
Proof.
  induction d as [|[k' v'] d IH]; simpl.
  - now rewrite String.eqb_refl.
  - destruct (String.eqb k k') eqn:E; simpl; now rewrite E.
Qed.

Lemma dict_get_set_other {V : Type} (k k' : string) (v : V) (d : Dict.t V) :
  k <> k' -> Dict.get k' (Dict.set k v d) = Dict.get k' d.
Proof.
  intros Hne. induction d as [|[k0 v0] d IH]; simpl.
  - destruct (String.eqb k' k) eqn:E; [|reflexivity].
    apply String.eqb_eq in E. congruence.
  - destruct (String.eqb k k0) eqn:E; simpl.
    + apply String.eqb_eq in E. subst k0.
      destruct (String.eqb k' k) eqn:E'; [|reflexivity].
      apply String.eqb_eq in E'. congruence.
    + now rewrite IH.
Qed.

Lemma dict_keys_set {V : Type} (k : string) (v : V) (d : Dict.t V) (k' : string) :
  In k' (Dict.keys (Dict.set k v d)) <-> k' = k \/ In k' (Dict.keys d).
Proof.
  unfold Dict.keys. induction d as [|[k0 v0] d IH]; simpl.
  - intuition.
  - destruct (String.eqb k k0) eqn:E; simpl.
    + apply String.eqb_eq in E. subst k0. intuition.
    + rewrite IH. intuition.
Qed.

(** ** The stages of the pipeline *)

Section PipelineFacts.

Context {W : Type}.
Variable svc : Services W.

Implicit Types (w : world W) (text : string).

(** One external call, spelled out. *)
Lemma external_eq {A : Type} (c : call) (f : W -> result A * W) w r e' :
  f (ext w) = (r, e') ->
  external c f w = (r, mkWorld e' (calls w ++ [c])).
Proof. intros H. unfold external. now rewrite H. Qed.

(** *** The detector *)

Lemma check_multiple_resumes_eq text w response e' :
  llm_invoke svc (SPLIT_PROMPT ++ nl ++ nl ++ text) (ext w) = (Ok response, e') ->
  check_multiple_resumes svc text w =
    (match json_loads svc response with
     | Ok v => Ok v
     | Raise e => if is_JSONDecodeError e then Ok default_detection else Raise e
     end,
     mkWorld e' (calls w ++ [CallLLM (SPLIT_PROMPT ++ nl ++ nl ++ text)])).
Proof.
  intros H. unfold check_multiple_resumes, bind.
  rewrite (external_eq _ _ _ _ _ H).
  destruct (json_loads svc response) as [v|e]; [reflexivity|].
  now destruct (is_JSONDecodeError e).
Qed.

(** C2, as the code has it.  When [json.loads] raises [JSONDecodeError]
    on the answer of the model to the detection prompt, the detector
    returns exactly the default
    [{multiple_resumes: false, resume_count: 1}]: it returns, it does not
    raise. *)
Theorem check_multiple_resumes_default text w response e' :
  llm_invoke svc (SPLIT_PROMPT ++ nl ++ nl ++ text) (ext w) = (Ok response, e') ->
  json_loads svc response = Raise JSONDecodeError ->
  check_multiple_resumes svc text w =
    (Ok (PDict [("multiple_resumes", PBool false); ("resume_count", PInt 1)]),
     mkWorld e' (calls w ++ [CallLLM (SPLIT_PROMPT ++ nl ++ nl ++ text)])).
Proof.
  intros Hllm Hjson.
  rewrite (check_multiple_resumes_eq _ _ _ _ Hllm), Hjson.
  reflexivity.
Qed.

(** *** The splitter *)

Lemma split_resumes_eq text w r e' :
  zerox_split svc text (ext w) = (r, e') ->
  split_resumes svc text w =
    (Ok (match r with
         | Ok (SplitList l) => l
         | _ => [PStr text]
         end),
     mkWorld e' (calls w ++ [CallSplit text])).
Proof.
  intros H. unfold split_resumes, try_except, bind.
  rewrite (external_eq _ _ _ _ _ H).
  destruct r as [[l|]|e]; reflexivity.
Qed.

Lemma split_resumes_returns text w :
  exists segments w', split_resumes svc text w = (Ok segments, w').
Proof.
  destruct (zerox_split svc text (ext w)) as [r e'] eqn:H.
  rewrite (split_resumes_eq _ _ _ _ H). eauto.
Qed.

(** C4.  The splitter never raises; and when the splitting call raises an
    exception or returns something that is not a list, the splitter
    returns the whole input text as a one-element list. *)
Theorem split_resumes_graceful text w :
  (exists segments w', split_resumes svc text w = (Ok segments, w')) /\
  (forall r e',
      zerox_split svc text (ext w) = (r, e') ->
      (forall l, r <> Ok (SplitList l)) ->
      split_resumes svc text w =
        (Ok [PStr text], mkWorld e' (calls w ++ [CallSplit text]))).
Proof.
  split; [apply split_resumes_returns|].
  intros r e' H Hr. rewrite (split_resumes_eq _ _ _ _ H).
  destruct r as [[l|]|e]; try reflexivity.
  now destruct (Hr l).
Qed.

(** *** The choice of the segments *)

Lemma resume_texts_of_dict d text w :
  resume_texts_of svc (PDict d) text w =
    if truthy (match Dict.get "multiple_resumes" d with
               | Some v => v
               | None => PBool false
               end)
    then split_resumes svc text w
    else (Ok [PStr text], w).
Proof.
  unfold resume_texts_of, bind, lift. simpl.
  destruct (truthy _); reflexivity.
Qed.

(** C5.  When the detection result has [multiple_resumes = false], the
    file has exactly one segment, the whole transcribed text, and the
    world is untouched by the choice: no splitting call is made.  The
    records of the file are then those of that single segment. *)
Theorem single_resume_one_segment d text w :
  Dict.get "multiple_resumes" d = Some (PBool false) ->
  resume_texts_of svc (PDict d) text w = (Ok [PStr text], w) /\
  (forall file_path output_dir w0,
      external (CallTranscribe file_path output_dir)
               (zerox_pdf svc file_path output_dir) w0 = (Ok text, w) ->
      forall w1,
        check_multiple_resumes svc text w = (Ok (PDict d), w1) ->
        process_pdf_file_body svc file_path output_dir w0 =
          process_segments svc 1 [PStr text] [] w1).
Proof.
  intros Hd. split.
  - rewrite resume_texts_of_dict, Hd. reflexivity.
  - intros file_path output_dir w0 Ht w1 Hc.
    unfold process_pdf_file_body, bind at 1. rewrite Ht.
    unfold bind at 1. rewrite Hc.
    unfold bind at 1. rewrite resume_texts_of_dict, Hd. reflexivity.
Qed.

(** C6, as the code has it.  The detector's [resume_count] plays no part.
    With a false or absent [multiple_resumes] there is one segment, the
    whole text, and no splitting call.  With a true one the segments are
    the list the splitting call returns, whatever its length; when that
    call raises or returns something else than a list there is one
    segment, the whole text. *)
Theorem segments_follow_the_splitter d text w :
  let multiple :=
    match Dict.get "multiple_resumes" d with
    | Some v => v
    | None => PBool false
    end in
  (truthy multiple = false ->
   resume_texts_of svc (PDict d) text w = (Ok [PStr text], w)) /\
  (truthy multiple = true ->
   forall r x',
     zerox_split svc text (ext w) = (r, x') ->
     (forall l, r = Ok (SplitList l) ->
        resume_texts_of svc (PDict d) text w =
          (Ok l, mkWorld x' (calls w ++ [CallSplit text]))) /\
     ((forall l, r <> Ok (SplitList l)) ->
        resume_texts_of svc (PDict d) text w =
          (Ok [PStr text], mkWorld x' (calls w ++ [CallSplit text])))) /\
  (forall count,
     resume_texts_of svc (PDict (Dict.set "resume_count" count d)) text w =
     resume_texts_of svc (PDict d) text w).
Proof.
  cbv zeta. split; [|split].
  - intros Hm. now rewrite resume_texts_of_dict, Hm.
  - intros Hm r x' Hsplit. split.
    + intros l ->. rewrite resume_texts_of_dict, Hm.
      now rewrite (split_resumes_eq _ _ _ _ Hsplit).
    + intros Hr. rewrite resume_texts_of_dict, Hm.
      rewrite (split_resumes_eq _ _ _ _ Hsplit).
      destruct r as [[l|]|e]; try reflexivity. now destruct (Hr l).
  - intros count. rewrite !resume_texts_of_dict.
    rewrite dict_get_set_other; [reflexivity | discriminate].
Qed.

(** *** The extractor *)

Lemma process_single_resume_eq (resume_text : pyval) w r x' :
  llm_invoke svc (format_messages svc resume_text) (ext w) = (r, x') ->
  process_single_resume svc resume_text w =
    (Ok (match r with
         | Ok response =>
             match json_loads svc response with
             | Ok v => v
             | Raise _ => PDict []
             end
         | Raise _ => PDict []
         end),
     mkWorld x' (calls w ++ [CallLLM (format_messages svc resume_text)])).
Proof.
  intros H. unfold process_single_resume, try_except, bind.
  rewrite (external_eq _ _ _ _ _ H).
  destruct r as [response|e]; [|reflexivity].
  destruct (json_loads svc response) as [v|e]; [reflexivity|].
  now destruct (is_JSONDecodeError e).
Qed.

Lemma process_single_resume_returns (resume_text : pyval) w :
  exists v w', process_single_resume svc resume_text w = (Ok v, w').
Proof.
  destruct (llm_invoke svc (format_messages svc resume_text) (ext w))
    as [r x'] eqn:H.
  rewrite (process_single_resume_eq _ _ _ _ H). eauto.
Qed.




Lemma process_pdf_file_eq file_path output_dir w :
  process_pdf_file svc file_path output_dir w =
    match process_pdf_file_body svc file_path output_dir w with
    | (Ok records, w') => (Ok records, w')
    | (Raise _, w') => (Ok [PDict []], w')
    end.
Proof. reflexivity. Qed.

Lemma process_pdf_file_body_eq file_path output_dir w :
  process_pdf_file_body svc file_path output_dir w =
    match segments_of_file svc file_path output_dir w with
    | (Ok resume_texts, w') => process_segments svc 1 resume_texts [] w'
    | (Raise e, w') => (Raise e, w')
    end.
Proof.
  unfold process_pdf_file_body, segments_of_file, bind.
  destruct (external _ _ w) as [[text|e] wa]; [|reflexivity].
  destruct (check_multiple_resumes svc text wa) as [[cr|e] wb]; [|reflexivity].
  destruct (resume_texts_of svc cr text wb) as [[segs|e] wc]; reflexivity.
Qed.


(** *** The file boundary and the batch *)

Lemma process_pdf_file_returns file_path output_dir w :
  exists records w',
    process_pdf_file svc file_path output_dir w = (Ok records, w').
Proof.
  rewrite process_pdf_file_eq.
  destruct (process_pdf_file_body svc file_path output_dir w) as [[r|e] w'];
    eauto.
Qed.

Lemma boundary_gives_empty_record file_path output_dir w :
  reaches_file_boundary svc file_path output_dir w ->
  fst (process_pdf_file svc file_path output_dir w) = Ok [PDict []].
Proof.
  intros (e & w' & H). now rewrite process_pdf_file_eq, H.
Qed.

Lemma transcription_reaches_boundary file_path output_dir w :
  transcription_raises svc file_path output_dir w ->
  reaches_file_boundary svc file_path output_dir w.
Proof.
  intros (e & x' & H). exists e. eexists.
  unfold process_pdf_file_body, bind at 1.
  rewrite (external_eq _ _ _ _ _ H). reflexivity.
Qed.

Lemma detection_reaches_boundary file_path output_dir w :
  detection_raises svc file_path output_dir w ->
  reaches_file_boundary svc file_path output_dir w.
Proof.
  intros (text & w1 & e & w2 & Ht & Hc). exists e, w2.
  unfold process_pdf_file_body, bind at 1. rewrite Ht.
  unfold bind at 1. now rewrite Hc.
Qed.

(** The loop over the files: it always ends normally; its keys are the
    files and the keys it started with; a file that is met once has the
    entry its processing returned. *)
Lemma process_files_spec (pdf_files : list string) (output_dir : string) :
  forall (acc : Dict.t (list pyval)) w,
  exists results w',
    process_files svc pdf_files output_dir acc w = (Ok results, w') /\
    (forall f, In f (Dict.keys results) <-> In f pdf_files \/ In f (Dict.keys acc)) /\
    (forall f, ~ In f pdf_files -> Dict.get f results = Dict.get f acc) /\
    (NoDup pdf_files ->
     forall (k : nat) (f : string),
       nth_error pdf_files k = Some f ->
       exists records,
         fst (process_pdf_file svc f output_dir
                (world_before_file svc k pdf_files output_dir w)) = Ok records /\
         Dict.get f results = Some records).
Proof.
  induction pdf_files as [|f0 rest IH]; intros acc w.
  - exists acc, w. simpl. repeat split; try tauto.
    intros _ [|k] ? H; discriminate.
  - destruct (process_pdf_file_returns f0 output_dir w) as (r0 & w1 & H0).
    destruct (IH (Dict.set f0 r0 acc) w1)
      as (results & w' & Hrun & Hkeys & Hout & Hin).
    exists results, w'. split; [|split; [|split]].
    + simpl. unfold bind. now rewrite H0.
    + intros f. rewrite Hkeys, dict_keys_set. simpl. intuition.
    + intros f Hf. simpl in Hf. rewrite Hout by tauto.
      apply dict_get_set_other. intros ->. tauto.
    + intros Hnd [|k] f Hk; simpl in Hk.
      * injection Hk as <-. exists r0. simpl. rewrite H0. split; [reflexivity|].
        inversion Hnd; subst. rewrite Hout by assumption.
        apply dict_get_set_same.
      * simpl. rewrite H0. simpl. inversion Hnd; subst. now apply Hin.
Qed.

(** C1, as the code has it.  Once the output directory is made and the
    resume directory listed, the batch returns a mapping whose keys are
    exactly the listed files, whatever happens in each of them.  The
    entry of a file is what [process_pdf_file] returned for it, and it is
    the one-element list holding the empty mapping whenever an exception
    reaches the file boundary, as it does when the transcription raises
    and when the detection raises.  (Exceptions of the splitting call and
    of the extraction call are handled in [split_resumes] and in
    [process_single_resume] and do not reach the file boundary.) *)
Theorem file_failures_are_isolated
        resume_directory output_dir w u x1 pdf_files x2 :
  mkdir svc output_dir (ext w) = (Ok u, x1) ->
  glob_pdf svc resume_directory x1 = (Ok pdf_files, x2) ->
  NoDup pdf_files ->
  exists results w',
    process_multiple_files svc resume_directory output_dir w = (Ok results, w') /\
    (forall f, In f (Dict.keys results) <-> In f pdf_files) /\
    (forall (k : nat) (f : string),
       nth_error pdf_files k = Some f ->
       let wk :=
         world_before_file svc k pdf_files output_dir
           (mkWorld x2 ((calls w ++ [CallMkdir output_dir])
                          ++ [CallGlob resume_directory])) in
       (exists records,
           fst (process_pdf_file svc f output_dir wk) = Ok records /\
           Dict.get f results = Some records) /\
       (transcription_raises svc f output_dir wk ->
        Dict.get f results = Some [PDict []]) /\
       (detection_raises svc f output_dir wk ->
        Dict.get f results = Some [PDict []]) /\
       (reaches_file_boundary svc f output_dir wk ->
        Dict.get f results = Some [PDict []])) /\
    (forall text w0, exists segments w1,
        split_resumes svc text w0 = (Ok segments, w1)) /\
    (forall resume_text w0, exists record w1,
        process_single_resume svc resume_text w0 = (Ok record, w1)).
Proof.
  intros Hmk Hglob Hnd.
  destruct (process_files_spec pdf_files output_dir Dict.empty
              (mkWorld x2 ((calls w ++ [CallMkdir output_dir])
                             ++ [CallGlob resume_directory])))
    as (results & w' & Hrun & Hkeys & _ & Hin).
  exists results, w'. split; [|split; [|split; [|split]]].
  - unfold process_multiple_files, bind at 1.
    rewrite (external_eq _ _ _ _ _ Hmk).
    unfold bind at 1.
    rewrite (external_eq (CallGlob resume_directory) _
               (mkWorld x1 (calls w ++ [CallMkdir output_dir])) _ _ Hglob).
    exact Hrun.
  - intros f. rewrite Hkeys. simpl. tauto.
  - intros k f Hk wk.
    destruct (Hin Hnd k f Hk) as (records & Hr & Hget).
    assert (Hb : reaches_file_boundary svc f output_dir wk ->
                 Dict.get f results = Some [PDict []]).
    { intros Hraise. apply boundary_gives_empty_record in Hraise.
      fold wk in Hr. rewrite Hraise in Hr. injection Hr as <-. exact Hget. }
    split; [eauto|]. split; [|split]; auto.
    + intros H. apply Hb. now apply transcription_reaches_boundary.
    + intros H. apply Hb. now apply detection_reaches_boundary.
  - apply split_resumes_returns.
  - apply process_single_resume_returns.
Qed.

End PipelineFacts.

(** ** The record aggregator *)

Section AggregatorFacts.

Variable L : PyLib.

Implicit Types (fs : filesystem) (f : list row) (resume : pyval).

(** *** The cells *)

Lemma make_row_dict (d : Dict.t pyval) skills_str :
  skills_cell L (PDict d) = Ok skills_str ->
  exists name email mobile experience,
    make_row L (PDict d) = Ok [name; email; mobile; experience; skills_str].
Proof.
  intros H. unfold make_row. rewrite H. simpl. eauto.
Qed.

Lemma skills_cell_list (d : Dict.t pyval) (l : list pyval) :
  Dict.get "skills" d = Some (PList l) ->
  skills_cell L (PDict d) =
    Ok (join ";" (map (py_str (repr_other L))
                      (filter (fun skill => negb (is_None skill)) l))).
Proof. intros H. unfold skills_cell. simpl. now rewrite H. Qed.

(** C8.  For a candidate object, an absent or null [skills] gives the
    empty skills cell; the null elements of a [skills] list are dropped
    and the others are turned into text with [str] and joined with [;];
    the cell is the last of the candidate's record.  So the skills
    [["Python", null, "Go"]] give the cell [Python;Go]. *)
Theorem skills_are_null_safe (d : Dict.t pyval) :
  (Dict.get "skills" d = None \/ Dict.get "skills" d = Some PNone ->
   skills_cell L (PDict d) = Ok EmptyString) /\
  (forall l,
      Dict.get "skills" d = Some (PList l) ->
      skills_cell L (PDict d) =
        Ok (join ";" (map (py_str (repr_other L))
                          (filter (fun skill => negb (is_None skill)) l)))) /\
  (forall skills_str,
      skills_cell L (PDict d) = Ok skills_str ->
      exists name email mobile experience,
        make_row L (PDict d) = Ok [name; email; mobile; experience; skills_str]) /\
  skills_cell L (PDict [("skills", PList [PStr "Python"; PNone; PStr "Go"])])
    = Ok "Python;Go".
Proof.
  split; [|split; [|split]].
  - intros [H|H]; unfold skills_cell; simpl; now rewrite H.
  - apply skills_cell_list.
  - apply make_row_dict.
  - reflexivity.
Qed.

(** *** Writing the records *)

Lemma write_rows_appends (resumes : list pyval) :
  forall f, snd (write_rows L resumes f) = (f ++ data_rows L resumes)%list.
Proof.
  induction resumes as [|resume rest IH]; intros f; simpl.
  - now rewrite app_nil_r.
  - destruct (make_row L resume) as [r|e]; simpl.
    + now rewrite IH, <- app_assoc.
    + now rewrite app_nil_r.
Qed.

Lemma write_csv_appends (file_exists : bool) (parsed_json : pyval) f :
  snd (write_csv L file_exists parsed_json f) =
    ((if file_exists then f else f ++ [HEADER]) ++ batch_rows L parsed_json)%list.
Proof.
  unfold write_csv, batch_rows.
  destruct (py_iter parsed_json) as [resumes|e].
  - rewrite write_rows_appends. now destruct file_exists.
  - simpl. rewrite app_nil_r. now destruct file_exists.
Qed.

Lemma json_to_csv_files json_content output_dir fs parsed_json :
  json_loads L json_content = Ok parsed_json ->
  open_fails fs (csv_path output_dir) = false ->
  snd (json_to_csv L json_content output_dir fs) =
    {| files := Dict.set (csv_path output_dir)
                  (rows_after L (Dict.get (csv_path output_dir) (files fs))
                              parsed_json)
                  (files fs);
       open_fails := open_fails fs |}.
Proof.
  intros Hj Ho. unfold json_to_csv. rewrite Hj, Ho.
  destruct (Dict.get (csv_path output_dir) (files fs)) as [rows|] eqn:Hg.
  - pose proof (write_csv_appends true parsed_json rows) as Hw.
    destruct (write_csv L true parsed_json rows) as [r f']. simpl in *.
    now subst f'.
  - pose proof (write_csv_appends false parsed_json []) as Hw.
    destruct (write_csv L false parsed_json []) as [r f']. simpl in *.
    now subst f'.
Qed.

Lemma json_to_csv_unparsed json_content output_dir fs e :
  json_loads L json_content = Raise e ->
  snd (json_to_csv L json_content output_dir fs) = fs.
Proof. intros Hj. unfold json_to_csv. now rewrite Hj. Qed.

Lemma json_to_csv_not_opened json_content output_dir fs :
  open_fails fs (csv_path output_dir) = true ->
  snd (json_to_csv L json_content output_dir fs) = fs.
Proof.
  intros Ho. unfold json_to_csv.
  destruct (json_loads L json_content); [now rewrite Ho | reflexivity].
Qed.

Lemma json_to_csv_open_fails json_content output_dir fs :
  open_fails (snd (json_to_csv L json_content output_dir fs)) = open_fails fs.
Proof.
  destruct (json_loads L json_content) as [parsed|e] eqn:Hj.
  - destruct (open_fails fs (csv_path output_dir)) eqn:Ho.
    + now rewrite json_to_csv_not_opened.
    + now rewrite (json_to_csv_files _ _ _ _ Hj Ho).
  - now rewrite (json_to_csv_unparsed _ _ _ _ Hj).
Qed.

Lemma data_rows_all (resumes : list pyval) (rows : list row) :
  Forall2 (fun resume r => make_row L resume = Ok r) resumes rows ->
  data_rows L resumes = rows.
Proof.
  induction 1 as [|resume r resumes rows Hr _ IH]; simpl.
  - reflexivity.
  - now rewrite Hr, IH.
Qed.

Lemma write_rows_stops (pre : list pyval) (rows : list row) :
  Forall2 (fun resume r => make_row L resume = Ok r) pre rows ->
  forall bad post e f,
    make_row L bad = Raise e ->
    write_rows L (pre ++ bad :: post) f = (Raise e, (f ++ rows)%list).
Proof.
  induction 1 as [|resume r pre rows Hr _ IH]; intros bad post e f Hbad; simpl.
  - now rewrite Hbad, app_nil_r.
  - rewrite Hr, (IH _ _ _ _ Hbad), <- app_assoc. reflexivity.
Qed.

(** C7.  With a destination that can be opened, a call whose content is
    JSON appends its data records to an existing file as it is, and
    starts a file that does not exist with the header; so two calls in a
    row on a destination that does not exist leave one header, then the
    data records of the first call, then those of the second.  The data
    records of a call whose candidates all convert are the records of
    all of them, in order.  A call whose content is not parsed writes
    nothing, hence no header. *)
Theorem header_written_once output_dir fs :
  open_fails fs (csv_path output_dir) = false ->
  (forall json_content parsed_json,
      json_loads L json_content = Ok parsed_json ->
      Dict.get (csv_path output_dir)
               (files (snd (json_to_csv L json_content output_dir fs))) =
        Some (match Dict.get (csv_path output_dir) (files fs) with
              | Some rows => rows ++ batch_rows L parsed_json
              | None => HEADER :: batch_rows L parsed_json
              end)%list) /\
  (forall first second parsed1 parsed2,
      Dict.get (csv_path output_dir) (files fs) = None ->
      json_loads L first = Ok parsed1 ->
      json_loads L second = Ok parsed2 ->
      Dict.get (csv_path output_dir)
               (files (snd (json_to_csv L second output_dir
                              (snd (json_to_csv L first output_dir fs))))) =
        Some (HEADER :: batch_rows L parsed1 ++ batch_rows L parsed2)%list) /\
  (forall resumes rows,
      Forall2 (fun resume r => make_row L resume = Ok r) resumes rows ->
      batch_rows L (PList resumes) = rows) /\
  (forall json_content e,
      json_loads L json_content = Raise e ->
      snd (json_to_csv L json_content output_dir fs) = fs).
Proof.
  intros Ho. split; [|split; [|split]].
  - intros json_content parsed_json Hj.
    rewrite (json_to_csv_files _ _ _ _ Hj Ho). simpl.
    rewrite dict_get_set_same. reflexivity.
  - intros first second parsed1 parsed2 Hnone H1 H2.
    assert (Ho' : open_fails (snd (json_to_csv L first output_dir fs))
                             (csv_path output_dir) = false)
      by now rewrite json_to_csv_open_fails.
    rewrite (json_to_csv_files _ _ _ _ H2 Ho'). simpl.
    rewrite dict_get_set_same.
    rewrite (json_to_csv_files _ _ _ _ H1 Ho). simpl.
    rewrite dict_get_set_same, Hnone. reflexivity.
  - intros resumes rows Hall. unfold batch_rows. simpl.
    now apply data_rows_all.
  - intros json_content e Hj. exact (json_to_csv_unparsed _ _ _ _ Hj).
Qed.

(** C9.  A call of the aggregator never loses a record: every file keeps
    the records it had, in order, with at most new ones after them.  When
    the content is not parseable ([json.loads] raises), the call prints
    its error and the file system is as before: the destination is
    neither created nor modified. *)
Theorem earlier_rows_survive json_content output_dir fs :
  (forall path rows,
      Dict.get path (files fs) = Some rows ->
      exists added,
        Dict.get path (files (snd (json_to_csv L json_content output_dir fs)))
          = Some (rows ++ added)%list) /\
  (forall e,
      json_loads L json_content = Raise e ->
      json_to_csv L json_content output_dir fs =
        (if is_JSONDecodeError e then ErrorParsingJSON else ErrorConverting e,
         fs)).
Proof.
  split.
  - intros path rows Hrows.
    destruct (json_loads L json_content) as [parsed|e] eqn:Hj.
    + destruct (open_fails fs (csv_path output_dir)) eqn:Ho.
      * rewrite json_to_csv_not_opened by assumption.
        exists []. now rewrite app_nil_r.
      * rewrite (json_to_csv_files _ _ _ _ Hj Ho). simpl.
        destruct (string_dec (csv_path output_dir) path) as [<-|Hne].
        -- rewrite dict_get_set_same, Hrows. simpl. eauto.
        -- rewrite (dict_get_set_other _ _ _ _ Hne).
           exists []. now rewrite app_nil_r.
    + rewrite (json_to_csv_unparsed _ _ _ _ Hj).
      exists []. now rewrite app_nil_r.
  - intros e Hj. unfold json_to_csv. now rewrite Hj.
Qed.

(** C10.  A call is not atomic.  When the content is a JSON array whose
    first candidates convert and whose next one raises, the call prints
    its error and leaves in the destination the records it found there
    (or the header, in a new file) followed by the records of the
    candidates before the failing one. *)
Theorem failed_call_leaves_partial_batch
        json_content output_dir fs pre bad post rows e :
  open_fails fs (csv_path output_dir) = false ->
  json_loads L json_content = Ok (PList (pre ++ bad :: post)) ->
  Forall2 (fun resume r => make_row L resume = Ok r) pre rows ->
  make_row L bad = Raise e ->
  json_to_csv L json_content output_dir fs =
    (ErrorConverting e,
     {| files :=
          Dict.set (csv_path output_dir)
                   (match Dict.get (csv_path output_dir) (files fs) with
                    | Some old => old ++ rows
                    | None => HEADER :: rows
                    end)%list
                   (files fs);
        open_fails := open_fails fs |}).
Proof.
  intros Ho Hj Hpre Hbad. unfold json_to_csv. rewrite Hj, Ho.
  unfold write_csv. simpl py_iter. cbv iota.
  destruct (Dict.get (csv_path output_dir) (files fs)) as [old|]; simpl negb;
    cbv iota; rewrite (write_rows_stops _ _ Hpre _ _ _ _ Hbad); reflexivity.
Qed.

End AggregatorFacts.

(* ================================================================== *)
(** ** The properties on the scripted instance *)

Section Examples.

Import Demo.

(** The detector answered with [not json]. *)
Lemma check_multiple_resumes_default_witness :
  llm_invoke services (SPLIT_PROMPT ++ nl ++ nl ++ "doc") detector_not_json
    = (Ok "not json", mkState ["a.pdf"] [] [] (Ok SplitOther)) /\
  json_loads services "not json" = Raise JSONDecodeError /\
  check_multiple_resumes services "doc" (start detector_not_json) =
    (Ok (PDict [("multiple_resumes", PBool false); ("resume_count", PInt 1)]),
     mkWorld (mkState ["a.pdf"] [] [] (Ok SplitOther))
             ([] ++ [CallLLM (SPLIT_PROMPT ++ nl ++ nl ++ "doc")])).
Proof.
  split; [reflexivity|]. split; [reflexivity|].
  apply (check_multiple_resumes_default services "doc" (start detector_not_json)
           "not json" (mkState ["a.pdf"] [] [] (Ok SplitOther)));
    reflexivity.
Defined.

(** C2 as the specification states it fails: the answer is 5000 digits
    followed by a word, which is not JSON; [json.loads] raises
    [ValueError] on the digits, not [JSONDecodeError]; the detector does
    not handle it and raises instead of returning the default. *)
Lemma over_long_integer_leaves_the_detector :
  MiniJson.loads LimitedJson.long_number_oops = Raise JSONDecodeError /\
  json_loads LimitedJson.services LimitedJson.long_number_oops
    = Raise (OtherException "ValueError") /\
  fst (check_multiple_resumes LimitedJson.services "doc"
         (start LimitedJson.detector_long_number))
    = Raise (OtherException "ValueError") /\
  Raise (OtherException "ValueError")
    <> Ok (PDict [("multiple_resumes", PBool false); ("resume_count", PInt 1)]).
Proof.
  split; [vm_compute; reflexivity|]. split; [vm_compute; reflexivity|].
  split; [vm_compute; reflexivity|]. discriminate.
Qed.

(** The splitting call raises: the text stays whole. *)
Lemma split_resumes_graceful_witness :
  zerox_split services "doc" splitter_raises
    = (Raise (OtherException "boom"), splitter_raises) /\
  split_resumes services "doc" (start splitter_raises) =
    (Ok [PStr "doc"], mkWorld splitter_raises ([] ++ [CallSplit "doc"])).
Proof.
  split; [reflexivity|].
  apply (proj2 (split_resumes_graceful services "doc" (start splitter_raises))
           (Raise (OtherException "boom")) splitter_raises).
  - reflexivity.
  - intros l H. discriminate H.
Defined.

(** The default of the detector: one segment, no call. *)
Lemma single_resume_one_segment_witness :
  Dict.get "multiple_resumes"
           [("multiple_resumes", PBool false); ("resume_count", PInt 1)]
    = Some (PBool false) /\
  resume_texts_of services
      (PDict [("multiple_resumes", PBool false); ("resume_count", PInt 1)])
      "doc" (start three_announced_two_split)
    = (Ok [PStr "doc"], start three_announced_two_split).
Proof.
  split; [reflexivity|].
  apply (proj1 (single_resume_one_segment services
                  [("multiple_resumes", PBool false); ("resume_count", PInt 1)]
                  "doc" (start three_announced_two_split) eq_refl)).
Defined.

(** Three resumes announced, two segments returned: the segments are the
    two. *)
Lemma segments_follow_the_splitter_witness :
  truthy (PBool true) = true /\
  zerox_split services "doc" three_announced_two_split
    = (Ok (SplitList [PStr "r1"; PStr "r2"]), three_announced_two_split) /\
  resume_texts_of services
      (PDict [("multiple_resumes", PBool true); ("resume_count", PInt 3)])
      "doc" (start three_announced_two_split)
    = (Ok [PStr "r1"; PStr "r2"],
       mkWorld three_announced_two_split ([] ++ [CallSplit "doc"])).
Proof.
  split; [reflexivity|]. split; [reflexivity|].
  apply (proj1 (proj1 (proj2 (segments_follow_the_splitter services
                  [("multiple_resumes", PBool true); ("resume_count", PInt 3)]
                  "doc" (start three_announced_two_split)))
                eq_refl _ _ eq_refl)
               [PStr "r1"; PStr "r2"] eq_refl).
Defined.

(** C6 as the specification states it fails: the detector announces three
    resumes, the splitting call returns two segments, and the file has
    two segments, not three. *)
Lemma segment_count_is_not_resume_count :
  fst (check_multiple_resumes services "doc" (start three_announced_two_split))
    = Ok (PDict [("multiple_resumes", PBool true); ("resume_count", PInt 3)]) /\
  fst (resume_texts_of services
         (PDict [("multiple_resumes", PBool true); ("resume_count", PInt 3)])
         "doc"
         (snd (check_multiple_resumes services "doc"
                 (start three_announced_two_split))))
    = Ok [PStr "r1"; PStr "r2"] /\
  Z.of_nat (List.length [PStr "r1"; PStr "r2"]) <> 3.
Proof.
  split; [vm_compute; reflexivity|]. split; [vm_compute; reflexivity|].
  discriminate.
Qed.



(** Two files, the first of which cannot be transcribed: both are in the
    results. *)
Lemma file_failures_are_isolated_witness :
  mkdir services "out" first_unreadable = (Ok tt, first_unreadable) /\
  glob_pdf services "resumes" first_unreadable
    = (Ok ["a.pdf"; "b.pdf"], first_unreadable) /\
  NoDup ["a.pdf"; "b.pdf"] /\
  exists results w',
    process_multiple_files services "resumes" "out" (start first_unreadable)
      = (Ok results, w') /\
    (forall f, In f (Dict.keys results) <-> In f ["a.pdf"; "b.pdf"]) /\
    (forall (k : nat) (f : string),
       nth_error ["a.pdf"; "b.pdf"] k = Some f ->
       let wk :=
         world_before_file services k ["a.pdf"; "b.pdf"] "out"
           (mkWorld first_unreadable
                    (([] ++ [CallMkdir "out"]) ++ [CallGlob "resumes"])) in
       (exists records,
           fst (process_pdf_file services f "out" wk) = Ok records /\
           Dict.get f results = Some records) /\
       (transcription_raises services f "out" wk ->
        Dict.get f results = Some [PDict []]) /\
       (detection_raises services f "out" wk ->
        Dict.get f results = Some [PDict []]) /\
       (reaches_file_boundary services f "out" wk ->
        Dict.get f results = Some [PDict []])) /\
    (forall text w0, exists segments w1,
        split_resumes services text w0 = (Ok segments, w1)) /\
    (forall resume_text w0, exists record w1,
        process_single_resume services resume_text w0 = (Ok record, w1)).
Proof.
  assert (Hnd : NoDup ["a.pdf"; "b.pdf"]).
  { constructor.
    - simpl. intros [H|[]]. discriminate H.
    - constructor; [simpl; tauto | constructor]. }
  split; [reflexivity|]. split; [reflexivity|]. split; [exact Hnd|].
  exact (file_failures_are_isolated services "resumes" "out"
           (start first_unreadable) tt first_unreadable
           ["a.pdf"; "b.pdf"] first_unreadable eq_refl eq_refl Hnd).
Defined.

(** C1 as the specification states it fails for the extraction stage: the
    call to the model raises while the only segment of [a.pdf] is
    extracted; the exception is handled in [process_single_resume], and
    the entry of the file is [[{resume_index: 1}]], not [[{}]]. *)
Lemma extractor_exception_stays_in_its_segment :
  fst (segments_of_file services "a.pdf" "out"
         (mkWorld extractor_raises [CallMkdir "out"; CallGlob "resumes"]))
    = Ok [PStr "text of a.pdf"] /\
  fst (llm_invoke services (format_messages services (PStr "text of a.pdf"))
         (ext (snd (segments_of_file services "a.pdf" "out"
                      (mkWorld extractor_raises
                               [CallMkdir "out"; CallGlob "resumes"])))))
    = Raise (OtherException "timeout") /\
  fst (process_multiple_files services "resumes" "out" (start extractor_raises))
    = Ok [("a.pdf", [PDict [("resume_index", PInt 1)]])] /\
  Dict.get "a.pdf" [("a.pdf", [PDict [("resume_index", PInt 1)]])]
    <> Some [PDict []].
Proof.
  split; [vm_compute; reflexivity|]. split; [vm_compute; reflexivity|].
  split; [vm_compute; reflexivity|]. discriminate.
Qed.

(** Two calls on a destination that does not exist. *)
Lemma header_written_once_witness :
  open_fails no_files (csv_path "out") = false /\
  Dict.get (csv_path "out") (files no_files) = None /\
  json_loads pylib "[{}]" = Ok (PList [PDict []]) /\
  json_loads pylib one_candidate
    = Ok (PList [PDict [("name", PStr "Ada");
                        ("skills", PList [PStr "Python"; PNone; PStr "Go"])]]) /\
  Dict.get (csv_path "out")
           (files (snd (json_to_csv pylib one_candidate "out"
                          (snd (json_to_csv pylib "[{}]" "out" no_files)))))
    = Some [HEADER;
            [EmptyString; EmptyString; EmptyString; EmptyString; EmptyString];
            ["Ada"; EmptyString; EmptyString; EmptyString; "Python;Go"]].
Proof.
  split; [reflexivity|]. split; [reflexivity|].
  split; [vm_compute; reflexivity|]. split; [vm_compute; reflexivity|].
  exact (proj1 (proj2 (header_written_once pylib "out" no_files eq_refl))
           "[{}]" one_candidate
           (PList [PDict []])
           (PList [PDict [("name", PStr "Ada");
                          ("skills", PList [PStr "Python"; PNone; PStr "Go"])]])
           eq_refl eq_refl eq_refl).
Defined.

(** A candidate with two skills and a null between them. *)
Lemma skills_are_null_safe_witness :
  Dict.get "skills"
           [("name", PStr "Ada");
            ("skills", PList [PStr "Python"; PNone; PStr "Go"])]
    = Some (PList [PStr "Python"; PNone; PStr "Go"]) /\
  skills_cell pylib
      (PDict [("name", PStr "Ada");
              ("skills", PList [PStr "Python"; PNone; PStr "Go"])])
    = Ok "Python;Go".
Proof.
  split; [reflexivity|].
  exact (proj1 (proj2 (skills_are_null_safe pylib
                  [("name", PStr "Ada");
                   ("skills", PList [PStr "Python"; PNone; PStr "Go"])]))
           [PStr "Python"; PNone; PStr "Go"] eq_refl).
Defined.

(** A failing call on a destination that holds a record. *)
Lemma earlier_rows_survive_witness :
  Dict.get (csv_path "out") (files one_record_written)
    = Some [HEADER; ["Ada"; "a@b.c"; "1"; "5 years"; "Go"]] /\
  (exists added,
      Dict.get (csv_path "out")
               (files (snd (json_to_csv pylib "[{}, 5]" "out" one_record_written)))
        = Some ([HEADER; ["Ada"; "a@b.c"; "1"; "5 years"; "Go"]] ++ added)%list) /\
  json_loads pylib "not json" = Raise JSONDecodeError /\
  json_to_csv pylib "not json" "out" one_record_written
    = (ErrorParsingJSON, one_record_written).
Proof.
  split; [reflexivity|]. split.
  - exact (proj1 (earlier_rows_survive pylib "[{}, 5]" "out" one_record_written)
             (csv_path "out") [HEADER; ["Ada"; "a@b.c"; "1"; "5 years"; "Go"]]
             eq_refl).
  - split; [reflexivity|].
    exact (proj2 (earlier_rows_survive pylib "not json" "out" one_record_written)
             JSONDecodeError eq_refl).
Defined.

(** The second candidate of the array is the number 5. *)
Lemma failed_call_leaves_partial_batch_witness :
  open_fails no_files (csv_path "out") = false /\
  json_loads pylib "[{}, 5]" = Ok (PList ([PDict []] ++ PInt 5 :: [])) /\
  Forall2 (fun resume r => make_row pylib resume = Ok r) [PDict []]
          [[EmptyString; EmptyString; EmptyString; EmptyString; EmptyString]] /\
  make_row pylib (PInt 5) = Raise AttributeError /\
  json_to_csv pylib "[{}, 5]" "out" no_files =
    (ErrorConverting AttributeError,
     {| files :=
          Dict.set (csv_path "out")
            (HEADER ::
             [[EmptyString; EmptyString; EmptyString; EmptyString; EmptyString]])
            (files no_files);
        open_fails := open_fails no_files |}).
Proof.
  assert (Hpre : Forall2 (fun resume r => make_row pylib resume = Ok r)
                   [PDict []]
                   [[EmptyString; EmptyString; EmptyString; EmptyString;
                     EmptyString]])
    by (constructor; [reflexivity | constructor]).
  split; [reflexivity|]. split; [vm_compute; reflexivity|].
  split; [exact Hpre|]. split; [reflexivity|].
  exact (failed_call_leaves_partial_batch pylib "[{}, 5]" "out" no_files
           [PDict []] (PInt 5) []
           [[EmptyString; EmptyString; EmptyString; EmptyString; EmptyString]]
           AttributeError eq_refl eq_refl Hpre eq_refl).
Defined.

End Examples.

(* ================================================================== *)
(** ** More on the pipeline *)

Section PipelineMore.

Context {W : Type}.
Variable svc : Services W.

Implicit Types (w : world W) (text : string).

(** *** The detector lets other failures through *)

(** An exception of the call to the model, and an exception of
    [json.loads] other than [JSONDecodeError], leave
    [check_multiple_resumes] as they are: only [JSONDecodeError] is
    turned into the default. *)
Theorem detection_errors_propagate text w :
  (forall e x',
      llm_invoke svc (SPLIT_PROMPT ++ nl ++ nl ++ text) (ext w) = (Raise e, x') ->
      check_multiple_resumes svc text w =
        (Raise e,
         mkWorld x' (calls w ++ [CallLLM (SPLIT_PROMPT ++ nl ++ nl ++ text)]))) /\
  (forall response x' e,
      llm_invoke svc (SPLIT_PROMPT ++ nl ++ nl ++ text) (ext w) = (Ok response, x') ->
      json_loads svc response = Raise e ->
      is_JSONDecodeError e = false ->
      check_multiple_resumes svc text w =
        (Raise e,
         mkWorld x' (calls w ++ [CallLLM (SPLIT_PROMPT ++ nl ++ nl ++ text)]))).
Proof.
  split.
  - intros e x' H. unfold check_multiple_resumes, bind.
    now rewrite (external_eq _ _ _ _ _ H).
  - intros response x' e H Hj He.
    rewrite (check_multiple_resumes_eq _ _ _ _ _ H), Hj, He. reflexivity.
Qed.

(** *** A detection that is not an object *)

Lemma resume_texts_of_not_dict (v : pyval) text w :
  (forall d, v <> PDict d) ->
  resume_texts_of svc v text w = (Raise AttributeError, w).
Proof.
  intros Hv. destruct v; try reflexivity. now destruct (Hv d).
Qed.

(** When the detector's answer is JSON but not an object, the file gives
    the single empty record and the work on it stops there: after the
    transcription and the detection, no splitting call and no extraction
    call is made. *)
Theorem non_object_detection_fails_the_file
        file_path output_dir w text x1 response x2 (v : pyval) :
  zerox_pdf svc file_path output_dir (ext w) = (Ok text, x1) ->
  llm_invoke svc (SPLIT_PROMPT ++ nl ++ nl ++ text) x1 = (Ok response, x2) ->
  json_loads svc response = Ok v ->
  (forall d, v <> PDict d) ->
  process_pdf_file svc file_path output_dir w =
    (Ok [PDict []],
     mkWorld x2 ((calls w ++ [CallTranscribe file_path output_dir])
                   ++ [CallLLM (SPLIT_PROMPT ++ nl ++ nl ++ text)])).
Proof.
  intros Ht Hllm Hj Hv.
  rewrite process_pdf_file_eq. unfold process_pdf_file_body, bind at 1.
  rewrite (external_eq _ _ _ _ _ Ht). unfold bind at 1.
  rewrite (check_multiple_resumes_eq svc text
             (mkWorld x1 (calls w ++ [CallTranscribe file_path output_dir]))
             response x2 Hllm), Hj.
  unfold bind at 1. now rewrite (resume_texts_of_not_dict _ _ _ Hv).
Qed.

(** *** No segment at all *)

(** When the detector reports several resumes and the splitting call
    returns the empty list, the file gives the empty list of records, not
    the single empty record, and no extraction call is made. *)
Theorem empty_split_gives_no_record
        file_path output_dir w text x1 response x2 d x3 :
  zerox_pdf svc file_path output_dir (ext w) = (Ok text, x1) ->
  llm_invoke svc (SPLIT_PROMPT ++ nl ++ nl ++ text) x1 = (Ok response, x2) ->
  json_loads svc response = Ok (PDict d) ->
  truthy (match Dict.get "multiple_resumes" d with
          | Some v => v
          | None => PBool false
          end) = true ->
  zerox_split svc text x2 = (Ok (SplitList []), x3) ->
  process_pdf_file svc file_path output_dir w =
    (Ok [],
     mkWorld x3 (((calls w ++ [CallTranscribe file_path output_dir])
                    ++ [CallLLM (SPLIT_PROMPT ++ nl ++ nl ++ text)])
                   ++ [CallSplit text])).
Proof.
  intros Ht Hllm Hj Hm Hs.
  rewrite process_pdf_file_eq. unfold process_pdf_file_body, bind at 1.
  rewrite (external_eq _ _ _ _ _ Ht). unfold bind at 1.
  rewrite (check_multiple_resumes_eq svc text
             (mkWorld x1 (calls w ++ [CallTranscribe file_path output_dir]))
             response x2 Hllm), Hj.
  cbn [calls ext]. unfold bind at 1. rewrite resume_texts_of_dict, Hm.
  rewrite (split_resumes_eq svc text
             (mkWorld x2 ((calls w ++ [CallTranscribe file_path output_dir])
                            ++ [CallLLM (SPLIT_PROMPT ++ nl ++ nl ++ text)]))
             (Ok (SplitList [])) x3 Hs).
  reflexivity.
Qed.

(** *** The loop over the segments, call by call *)

Lemma process_single_resume_trace (resume_text : pyval) w :
  answers_with_object svc resume_text w ->
  exists d x',
    process_single_resume svc resume_text w =
      (Ok (PDict d),
       mkWorld x' (calls w ++ [CallLLM (format_messages svc resume_text)])) /\
    (forall response x'' d',
        llm_invoke svc (format_messages svc resume_text) (ext w)
          = (Ok response, x'') ->
        json_loads svc response = Ok (PDict d') ->
        d = d').
Proof.
  intros Hobj.
  destruct (llm_invoke svc (format_messages svc resume_text) (ext w))
    as [r x'] eqn:H.
  rewrite (process_single_resume_eq _ _ _ _ _ H).
  destruct r as [response|e].
  - destruct (json_loads svc response) as [v|e] eqn:Hj.
    + destruct (Hobj _ _ _ H Hj) as [d ->]. exists d, x'. split; [reflexivity|].
      intros response' x'' d' Heq Hj'. injection Heq as <- _.
      rewrite Hj in Hj'. now injection Hj'.
    + exists [], x'. split; [reflexivity|].
      intros response' x'' d' Heq Hj'. injection Heq as <- _. congruence.
  - exists [], x'. split; [reflexivity|]. intros ? ? ? Heq. discriminate Heq.
Qed.

(** The loop over a prefix [pre] of the segments whose answers are fine:
    it reaches the rest with the index moved on, after one call per
    segment of the prefix. *)
Lemma process_segments_app (pre : list pyval) :
  forall (rest : list pyval) (idx : Z) (acc : list pyval) w,
    answers_with_objects svc pre w ->
    exists records,
      process_segments svc idx (pre ++ rest) acc w =
        process_segments svc (idx + Z.of_nat (List.length pre)) rest
          (acc ++ records)
          (world_before_segment svc (List.length pre) (pre ++ rest) w) /\
      List.length records = List.length pre /\
      calls (world_before_segment svc (List.length pre) (pre ++ rest) w) =
        (calls w ++ extraction_calls svc pre)%list /\
      forall (k : nat) (resume_text : pyval),
        nth_error pre k = Some resume_text ->
        forall response x' d,
          llm_invoke svc (format_messages svc resume_text)
            (ext (world_before_segment svc k (pre ++ rest) w))
            = (Ok response, x') ->
          json_loads svc response = Ok (PDict d) ->
          nth_error records k =
            Some (PDict (Dict.set "resume_index" (PInt (idx + Z.of_nat k)) d)).
Proof.
  induction pre as [|t pre IH]; intros rest idx acc w Hobj.
  - exists []. simpl. rewrite Z.add_0_r, !app_nil_r. repeat split.
    intros [|k] ? H; discriminate.
  - destruct Hobj as [Ht Hrest].
    destruct (process_single_resume_trace _ _ Ht) as (d & x' & Hd & Hans).
    rewrite Hd in Hrest. cbn [snd] in Hrest.
    destruct (IH rest (idx + 1)
                (acc ++ [PDict (Dict.set "resume_index" (PInt idx) d)])%list
                _ Hrest) as (records & Hrun & Hlen & Hcalls & Hnth).
    exists (PDict (Dict.set "resume_index" (PInt idx) d) :: records).
    split; [|split; [|split]].
    + cbn [app process_segments List.length world_before_segment].
      unfold bind at 1. rewrite Hd. unfold bind at 1, lift.
      cbn [py_setitem snd]. rewrite Hrun, <- app_assoc.
      replace (idx + 1 + Z.of_nat (List.length pre))
        with (idx + Z.of_nat (S (List.length pre))) by lia.
      reflexivity.
    + simpl. now rewrite Hlen.
    + cbn [app List.length world_before_segment]. rewrite Hd. cbn [snd].
      rewrite Hcalls. cbn [calls]. unfold extraction_calls.
      rewrite <- app_assoc. reflexivity.
    + intros [|k] seg Hk response x'' d' Hllm Hj.
      * injection Hk as <-. cbn [app world_before_segment] in Hllm.
        rewrite (Hans _ _ _ Hllm Hj), Z.add_0_r. reflexivity.
      * cbn [app world_before_segment] in Hllm. rewrite Hd in Hllm.
        cbn [snd] in Hllm. simpl in Hk.
        cbn [nth_error].
        replace (idx + Z.of_nat (S k)) with (idx + 1 + Z.of_nat k) by lia.
        exact (Hnth k seg Hk _ _ _ Hllm Hj).
Qed.

(** The segments of a file are extracted one at a time and in order: when
    every answer is an object, a text that is not JSON or an exception,
    the loop makes exactly one call to the model per segment, in segment
    order, and nothing else. *)
Theorem extraction_is_sequential (resume_texts : list pyval) w :
  answers_with_objects svc resume_texts w ->
  exists records w',
    process_segments svc 1 resume_texts [] w = (Ok records, w') /\
    List.length records = List.length resume_texts /\
    calls w' = (calls w ++ extraction_calls svc resume_texts)%list.
Proof.
  intros Hobj.
  destruct (process_segments_app resume_texts [] 1 [] w Hobj)
    as (records & Hrun & Hlen & Hcalls & _).
  rewrite app_nil_r in *.
  exists records, (world_before_segment svc (List.length resume_texts) resume_texts w).
  split; [|split]; assumption.
Qed.

(** A record keeps what the model answered.  When the answer for the
    [k]-th segment is the JSON object [d], the [k]-th record is [d] with
    [resume_index] set: every other key keeps its value and its place,
    and a [resume_index] the model supplied is overwritten. *)
Theorem record_keeps_the_answer (resume_texts : list pyval) w :
  answers_with_objects svc resume_texts w ->
  exists records w',
    process_segments svc 1 resume_texts [] w = (Ok records, w') /\
    forall (k : nat) (resume_text : pyval),
      nth_error resume_texts k = Some resume_text ->
      forall response x' d,
        llm_invoke svc (format_messages svc resume_text)
          (ext (world_before_segment svc k resume_texts w)) = (Ok response, x') ->
        json_loads svc response = Ok (PDict d) ->
        exists d',
          nth_error records k = Some (PDict d') /\
          d' = Dict.set "resume_index" (PInt (Z.of_nat k + 1)) d /\
          Dict.get "resume_index" d' = Some (PInt (Z.of_nat k + 1)) /\
          (forall key, key <> "resume_index" -> Dict.get key d' = Dict.get key d) /\
          (forall key, In key (Dict.keys d) -> In key (Dict.keys d')).
Proof.
  intros Hobj.
  destruct (process_segments_app resume_texts [] 1 [] w Hobj)
    as (records & Hrun & _ & _ & Hnth).
  rewrite app_nil_r in *.
  exists records, (world_before_segment svc (List.length resume_texts) resume_texts w).
  split; [assumption|].
  intros k seg Hk response x' d Hllm Hj.
  exists (Dict.set "resume_index" (PInt (Z.of_nat k + 1)) d).
  split; [|split; [|split; [|split]]].
  - rewrite (Hnth k seg Hk _ _ _ Hllm Hj). now rewrite Z.add_comm.
  - reflexivity.
  - apply dict_get_set_same.
  - intros key Hkey. apply dict_get_set_other. congruence.
  - intros key Hin. apply dict_keys_set. now right.
Qed.

Lemma non_object_answer_stops_the_loop
      (pre : list pyval) (bad : pyval) (post : list pyval)
      (idx : Z) (acc : list pyval) w response x' (v : pyval) :
  answers_with_objects svc pre w ->
  llm_invoke svc (format_messages svc bad)
    (ext (world_before_segment svc (List.length pre) (pre ++ bad :: post) w))
    = (Ok response, x') ->
  json_loads svc response = Ok v ->
  (forall d, v <> PDict d) ->
  process_segments svc idx (pre ++ bad :: post) acc w =
    (Raise TypeError,
     mkWorld x' (calls w ++ extraction_calls svc (pre ++ [bad]))).
Proof.
  intros Hobj Hllm Hj Hv.
  destruct (process_segments_app pre (bad :: post) idx acc w Hobj)
    as (records & Hrun & _ & Hcalls & _).
  rewrite Hrun. cbn [process_segments]. unfold bind at 1.
  rewrite (process_single_resume_eq _ _ _ _ _ Hllm), Hj.
  unfold bind at 1, lift.
  assert (Hset : py_setitem v "resume_index"
                   (PInt (idx + Z.of_nat (List.length pre))) = Raise TypeError).
  { destruct v; try reflexivity. now destruct (Hv d). }
  rewrite Hset, Hcalls. unfold extraction_calls.
  rewrite map_app, app_assoc. reflexivity.
Qed.

(** The first answer that is JSON but not an object stops the file.  When
    the segments before it are answered with objects, texts that are not
    JSON or exceptions, the file gives the single empty record, whatever
    these segments gave; the model has been called for them and for the
    segment with the bad answer, and is not called for the segments after
    it. *)
Theorem non_object_answer_stops_the_file
        file_path output_dir w0
        (pre : list pyval) (bad : pyval) (post : list pyval)
        w response x' (v : pyval) :
  file_segments svc file_path output_dir w0 (pre ++ bad :: post) w ->
  answers_with_objects svc pre w ->
  llm_invoke svc (format_messages svc bad)
    (ext (world_before_segment svc (List.length pre) (pre ++ bad :: post) w))
    = (Ok response, x') ->
  json_loads svc response = Ok v ->
  (forall d, v <> PDict d) ->
  process_pdf_file svc file_path output_dir w0 =
    (Ok [PDict []],
     mkWorld x' (calls w ++ extraction_calls svc (pre ++ [bad]))).
Proof.
  intros Hseg Hobj Hllm Hj Hv.
  rewrite process_pdf_file_eq, process_pdf_file_body_eq, Hseg.
  now rewrite (non_object_answer_stops_the_loop pre bad post 1 [] w
                 response x' v Hobj Hllm Hj Hv).
Qed.

(** *** The batch *)

Lemma dict_keys_set_new {V : Type} (k : string) (v : V) (d : Dict.t V) :
  ~ In k (Dict.keys d) -> Dict.keys (Dict.set k v d) = (Dict.keys d ++ [k])%list.
Proof.
  unfold Dict.keys. induction d as [|[k0 v0] d IH]; simpl; intros Hk.
  - reflexivity.
  - destruct (String.eqb k k0) eqn:E.
    + apply String.eqb_eq in E. subst. tauto.
    + simpl. rewrite IH by tauto. reflexivity.
Qed.

Lemma process_files_keys (pdf_files : list string) (output_dir : string) :
  forall (acc : Dict.t (list pyval)) w,
    NoDup pdf_files ->
    (forall f, In f pdf_files -> ~ In f (Dict.keys acc)) ->
    exists results w',
      process_files svc pdf_files output_dir acc w = (Ok results, w') /\
      Dict.keys results = (Dict.keys acc ++ pdf_files)%list.
Proof.
  induction pdf_files as [|f0 rest IH]; intros acc w Hnd Hnew.
  - exists acc, w. simpl. now rewrite app_nil_r.
  - destruct (process_pdf_file_returns svc f0 output_dir w) as (r0 & w1 & H0).
    inversion Hnd as [|? ? Hf0 Hnd']; subst.
    destruct (IH (Dict.set f0 r0 acc) w1 Hnd') as (results & w' & Hrun & Hkeys).
    { intros f Hf Hin. apply dict_keys_set in Hin. destruct Hin as [->|Hin].
      - contradiction.
      - apply (Hnew f); simpl; auto. }
    exists results, w'. split.
    + simpl. unfold bind. now rewrite H0.
    + rewrite Hkeys, dict_keys_set_new, <- app_assoc; [reflexivity|].
      apply Hnew. now left.
Qed.

(** The results mapping lists the files in the order of the directory
    listing. *)
Theorem results_in_listing_order
        resume_directory output_dir w u x1 pdf_files x2 :
  mkdir svc output_dir (ext w) = (Ok u, x1) ->
  glob_pdf svc resume_directory x1 = (Ok pdf_files, x2) ->
  NoDup pdf_files ->
  exists results w',
    process_multiple_files svc resume_directory output_dir w = (Ok results, w') /\
    Dict.keys results = pdf_files.
Proof.
  intros Hmk Hglob Hnd.
  destruct (process_files_keys pdf_files output_dir Dict.empty
              (mkWorld x2 ((calls w ++ [CallMkdir output_dir])
                             ++ [CallGlob resume_directory])) Hnd)
    as (results & w' & Hrun & Hkeys); [intros f _ []|].
  exists results, w'. split; [|exact Hkeys].
  unfold process_multiple_files, bind at 1.
  rewrite (external_eq _ _ _ _ _ Hmk). unfold bind at 1.
  rewrite (external_eq (CallGlob resume_directory) _
             (mkWorld x1 (calls w ++ [CallMkdir output_dir])) _ _ Hglob).
  exact Hrun.
Qed.

(** Failures of the batch itself are not isolated.  An exception of the
    creation of the output directory or of the listing of the resume
    directory leaves [process_multiple_files], before any file is looked
    at; and these are the only exceptions that leave it. *)
Theorem batch_raises_only_before_the_files resume_directory output_dir w :
  (forall e x1,
      mkdir svc output_dir (ext w) = (Raise e, x1) ->
      process_multiple_files svc resume_directory output_dir w =
        (Raise e, mkWorld x1 (calls w ++ [CallMkdir output_dir]))) /\
  (forall u x1 e x2,
      mkdir svc output_dir (ext w) = (Ok u, x1) ->
      glob_pdf svc resume_directory x1 = (Raise e, x2) ->
      process_multiple_files svc resume_directory output_dir w =
        (Raise e, mkWorld x2 ((calls w ++ [CallMkdir output_dir])
                                ++ [CallGlob resume_directory]))) /\
  (forall e w',
      process_multiple_files svc resume_directory output_dir w = (Raise e, w') ->
      (exists x1, mkdir svc output_dir (ext w) = (Raise e, x1)) \/
      (exists u x1 x2,
          mkdir svc output_dir (ext w) = (Ok u, x1) /\
          glob_pdf svc resume_directory x1 = (Raise e, x2))).
Proof.
  split; [|split].
  - intros e x1 Hmk. unfold process_multiple_files, bind at 1.
    now rewrite (external_eq _ _ _ _ _ Hmk).
  - intros u x1 e x2 Hmk Hglob. unfold process_multiple_files, bind at 1.
    rewrite (external_eq _ _ _ _ _ Hmk). unfold bind at 1.
    now rewrite (external_eq (CallGlob resume_directory) _
                   (mkWorld x1 (calls w ++ [CallMkdir output_dir])) _ _ Hglob).
  - intros e w'. unfold process_multiple_files, bind at 1.
    destruct (mkdir svc output_dir (ext w)) as [[u|e1] x1] eqn:Hmk;
      rewrite (external_eq _ _ _ _ _ Hmk).
    + unfold bind at 1.
      destruct (glob_pdf svc resume_directory x1) as [[files|e2] x2] eqn:Hglob;
        rewrite (external_eq (CallGlob resume_directory) _
                   (mkWorld x1 (calls w ++ [CallMkdir output_dir])) _ _ Hglob).
      * destruct (process_files_spec svc files output_dir Dict.empty
                    (mkWorld x2 ((calls w ++ [CallMkdir output_dir])
                                   ++ [CallGlob resume_directory])))
          as (results & w'' & Hrun & _).
        cbn [calls ext]. rewrite Hrun. discriminate.
      * intros Heq. injection Heq as <- _. right. eauto.
    + intros Heq. injection Heq as <- _. left. eauto.
Qed.

(** *** One transcription per file *)

Lemma no_transcription_ret {A : Type} (a : A) : no_transcription (W := W) (ret a).
Proof. intros w. exists []. simpl. now rewrite app_nil_r. Qed.

Lemma no_transcription_lift {A : Type} (r : result A) :
  no_transcription (W := W) (lift r).
Proof. intros w. exists []. simpl. now rewrite app_nil_r. Qed.

Lemma no_transcription_raise {A : Type} (e : exn) :
  no_transcription (W := W) (A := A) (raise e).
Proof. intros w. exists []. simpl. now rewrite app_nil_r. Qed.

Lemma no_transcription_external {A : Type} (c : call) (f : W -> result A * W) :
  is_transcribe c = false -> no_transcription (external c f).
Proof.
  intros Hc w. exists [c]. unfold external.
  destruct (f (ext w)) as [r x']. simpl. now rewrite Hc.
Qed.

Lemma no_transcription_bind {A B : Type} (m : M W A) (k : A -> M W B) :
  no_transcription m -> (forall a, no_transcription (k a)) ->
  no_transcription (bind m k).
Proof.
  intros Hm Hk w. unfold bind.
  destruct (Hm w) as (extra1 & H1 & Hf1).
  destruct (m w) as [[a|e] w1]; simpl in H1.
  - destruct (Hk a w1) as (extra2 & H2 & Hf2).
    exists (extra1 ++ extra2)%list. rewrite H2, H1, <- app_assoc.
    split; [reflexivity|]. now rewrite filter_app, Hf1, Hf2.
  - exists extra1. simpl. auto.
Qed.

Lemma no_transcription_try_except {A : Type} (m : M W A) (h : exn -> M W A) :
  no_transcription m -> (forall e, no_transcription (h e)) ->
  no_transcription (try_except m h).
Proof.
  intros Hm Hh w. unfold try_except.
  destruct (Hm w) as (extra1 & H1 & Hf1).
  destruct (m w) as [[a|e] w1]; simpl in H1.
  - exists extra1. simpl. auto.
  - destruct (Hh e w1) as (extra2 & H2 & Hf2).
    exists (extra1 ++ extra2)%list. rewrite H2, H1, <- app_assoc.
    split; [reflexivity|]. now rewrite filter_app, Hf1, Hf2.
Qed.

Lemma no_transcription_check text :
  no_transcription (check_multiple_resumes svc text).
Proof.
  apply no_transcription_bind.
  - now apply no_transcription_external.
  - intros response. destruct (json_loads svc response) as [v|e].
    + apply no_transcription_ret.
    + destruct (is_JSONDecodeError e);
        [apply no_transcription_ret | apply no_transcription_raise].
Qed.

Lemma no_transcription_split text : no_transcription (split_resumes svc text).
Proof.
  apply no_transcription_try_except.
  - apply no_transcription_bind.
    + now apply no_transcription_external.
    + intros r. apply no_transcription_ret.
  - intros e. apply no_transcription_ret.
Qed.

Lemma no_transcription_single (resume_text : pyval) :
  no_transcription (process_single_resume svc resume_text).
Proof.
  apply no_transcription_try_except.
  - apply no_transcription_bind.
    + now apply no_transcription_external.
    + intros response. destruct (json_loads svc response) as [v|e].
      * apply no_transcription_ret.
      * destruct (is_JSONDecodeError e);
          [apply no_transcription_ret | apply no_transcription_raise].
  - intros e. apply no_transcription_ret.
Qed.

Lemma no_transcription_segments (resume_texts : list pyval) :
  forall idx acc, no_transcription (process_segments svc idx resume_texts acc).
Proof.
  induction resume_texts as [|t rest IH]; intros idx acc; simpl.
  - apply no_transcription_ret.
  - apply no_transcription_bind; [apply no_transcription_single|].
    intros result. apply no_transcription_bind; [apply no_transcription_lift|].
    intros result'. apply IH.
Qed.

Lemma no_transcription_choice (check_result : pyval) text :
  no_transcription (resume_texts_of svc check_result text).
Proof.
  apply no_transcription_bind; [apply no_transcription_lift|].
  intros multiple. destruct (truthy multiple).
  - apply no_transcription_split.
  - apply no_transcription_ret.
Qed.

(** A file is transcribed once, first of all, whatever happens next. *)
Lemma process_pdf_file_transcribes_once file_path output_dir w :
  exists extra,
    calls (snd (process_pdf_file svc file_path output_dir w)) =
      (calls w ++ CallTranscribe file_path output_dir :: extra)%list /\
    filter is_transcribe extra = [].
Proof.
  unfold process_pdf_file, try_except, process_pdf_file_body, bind at 1.
  unfold external at 1.
  destruct (zerox_pdf svc file_path output_dir (ext w)) as [[text|e] x1].
  - pose (rest := bind (check_multiple_resumes svc text)
                    (fun check_result =>
                       bind (resume_texts_of svc check_result text)
                            (fun resume_texts =>
                               process_segments svc 1 resume_texts []))).
    assert (Hrest : no_transcription rest).
    { apply no_transcription_bind; [apply no_transcription_check|].
      intros cr. apply no_transcription_bind; [apply no_transcription_choice|].
      intros segs. apply no_transcription_segments. }
    destruct (Hrest (mkWorld x1 (calls w ++ [CallTranscribe file_path output_dir])))
      as (extra & Hcalls & Hf).
    exists extra. split; [|exact Hf]. fold rest.
    destruct (rest _) as [[records|e] w']; simpl in *;
      rewrite Hcalls, <- app_assoc; reflexivity.
  - exists []. simpl. auto.
Qed.

Lemma process_files_transcriptions (pdf_files : list string) (output_dir : string) :
  forall (acc : Dict.t (list pyval)) w,
    filter is_transcribe
           (calls (snd (process_files svc pdf_files output_dir acc w))) =
      (filter is_transcribe (calls w)
         ++ map (fun f => CallTranscribe f output_dir) pdf_files)%list.
Proof.
  induction pdf_files as [|f0 rest IH]; intros acc w.
  - simpl. now rewrite app_nil_r.
  - destruct (process_pdf_file_transcribes_once f0 output_dir w)
      as (extra & Hcalls & Hf).
    destruct (process_pdf_file_returns svc f0 output_dir w) as (r0 & w1 & H0).
    rewrite H0 in Hcalls. simpl in Hcalls.
    cbn [process_files]. unfold bind. rewrite H0, IH, Hcalls.
    rewrite filter_app. cbn [filter is_transcribe]. rewrite Hf.
    rewrite <- app_assoc. reflexivity.
Qed.

(** Every file of the listing is sent to the transcription service exactly
    once, in the order of the listing, also after files that failed; no
    other transcription is asked for. *)
Theorem each_file_is_transcribed_once
        resume_directory output_dir w u x1 pdf_files x2 :
  mkdir svc output_dir (ext w) = (Ok u, x1) ->
  glob_pdf svc resume_directory x1 = (Ok pdf_files, x2) ->
  filter is_transcribe
         (calls (snd (process_multiple_files svc resume_directory output_dir w))) =
    (filter is_transcribe (calls w)
       ++ map (fun f => CallTranscribe f output_dir) pdf_files)%list.
Proof.
  intros Hmk Hglob.
  unfold process_multiple_files, bind at 1.
  rewrite (external_eq _ _ _ _ _ Hmk). unfold bind at 1.
  rewrite (external_eq (CallGlob resume_directory) _
             (mkWorld x1 (calls w ++ [CallMkdir output_dir])) _ _ Hglob).
  rewrite process_files_transcriptions. cbn [calls].
  rewrite !filter_app. simpl. now rewrite !app_nil_r.
Qed.

End PipelineMore.

(* ================================================================== *)
(** ** More on the record aggregator *)

Section AggregatorMore.

Variable L : PyLib.

Implicit Types (fs : filesystem) (d : Dict.t pyval).

(** *** The cells *)

(** The cell of [name], [email] or [mobile] of a candidate object is never
    an error.  It is empty when the key is absent and when its value is
    falsy ([null], [false], [0], the empty string, list or object); a
    string value is the cell as it is. *)
Theorem text_cell_is_null_safe d (key : string) :
  (exists cell, text_cell L (PDict d) key = Ok cell) /\
  (Dict.get key d = None -> text_cell L (PDict d) key = Ok EmptyString) /\
  (forall v, Dict.get key d = Some v -> truthy v = false ->
             text_cell L (PDict d) key = Ok EmptyString) /\
  (forall s, Dict.get key d = Some (PStr s) ->
             text_cell L (PDict d) key = Ok s).
Proof.
  unfold text_cell, py_or. simpl. split; [eauto|]. split; [|split].
  - intros ->. reflexivity.
  - intros v -> Hv. now rewrite Hv.
  - intros s ->. simpl. destruct s; reflexivity.
Qed.

Lemma list_ascii_app (a b : string) :
  list_ascii_of_string (a ++ b) =
    (list_ascii_of_string a ++ list_ascii_of_string b)%list.
Proof. induction a as [|c a IH]; simpl; [reflexivity | now rewrite IH]. Qed.

Lemma replace_char_removes (old : ascii) (new s : string) :
  ~ In old (list_ascii_of_string new) ->
  ~ In old (list_ascii_of_string (replace_char old new s)).
Proof.
  intros Hnew. induction s as [|c s IH]; simpl; [tauto|].
  rewrite list_ascii_app, in_app_iff. intros [H|H]; [|tauto].
  destruct (Ascii.eqb c old) eqn:E; [tauto|].
  apply Ascii.eqb_neq in E. simpl in H. destruct H as [H|[]]. congruence.
Qed.

Lemma replace_char_length (old : ascii) (c' : ascii) (s : string) :
  String.length (replace_char old (String c' EmptyString) s) = String.length s.
Proof.
  induction s as [|c s IH]; simpl; [reflexivity|].
  destruct (Ascii.eqb c old); simpl; now rewrite IH.
Qed.

(** The cell of the experience of a candidate object is never an error
    and never holds a line feed, whatever the experience is (a string, a
    list, an object); for a string it has the length of the string, each
    line feed having become one space; for [null] it is empty. *)
Theorem experience_cell_is_one_line d :
  (exists cell,
      experience_cell L (PDict d) = Ok cell /\
      ~ In newline (list_ascii_of_string cell)) /\
  (forall s,
      Dict.get "experience" d = Some (PStr s) ->
      experience_cell L (PDict d) = Ok (replace_char newline " " s) /\
      String.length (replace_char newline " " s) = String.length s) /\
  (Dict.get "experience" d = Some PNone \/ Dict.get "experience" d = None ->
   experience_cell L (PDict d) = Ok EmptyString).
Proof.
  unfold experience_cell. simpl. split; [|split].
  - eexists. split; [reflexivity|].
    destruct (negb _); [|simpl; tauto].
    apply replace_char_removes. simpl. intros [H|[]]. discriminate H.
  - intros s ->. simpl. split; [reflexivity | apply replace_char_length].
  - intros [->| ->]; reflexivity.
Qed.

Lemma strings_back (l : list string) :
  map (py_str (repr_other L))
      (filter (fun skill => negb (is_None skill)) (map PStr l)) = l.
Proof. induction l as [|s l IH]; simpl; [reflexivity | now rewrite IH]. Qed.

(** Skills given as one string instead of a list are taken character by
    character: the cell is the characters of the string joined with [;].
    Skills given as an object give its keys. *)
Theorem skills_string_is_split d :
  (forall s,
      Dict.get "skills" d = Some (PStr s) ->
      skills_cell L (PDict d) = Ok (join ";" (str_chars s))) /\
  (forall o,
      Dict.get "skills" d = Some (PDict o) ->
      skills_cell L (PDict d) = Ok (join ";" (Dict.keys o))).
Proof.
  unfold skills_cell. simpl. split.
  - intros s ->. simpl. now rewrite strings_back.
  - intros o ->. simpl. now rewrite strings_back.
Qed.

(** *** The record of a candidate *)

Lemma make_row_not_dict (resume : pyval) :
  (forall d, resume <> PDict d) -> make_row L resume = Raise AttributeError.
Proof. intros H. destruct resume; try reflexivity. now destruct (H d). Qed.

(** A candidate converts unless its shape is wrong.  A record that is made
    has five cells and comes from an object.  The making of a record fails
    in two ways only: with [AttributeError] when the candidate is not an
    object, and with [TypeError] when it is an object whose [skills] are a
    number or a boolean. *)
Theorem make_row_fails_on_shape_only (resume : pyval) :
  (forall r, make_row L resume = Ok r ->
             five_cells r /\ exists d, resume = PDict d) /\
  (forall e, make_row L resume = Raise e ->
             (e = AttributeError /\ forall d, resume <> PDict d) \/
             (e = TypeError /\
              exists d v, resume = PDict d /\
                          Dict.get "skills" d = Some v /\
                          ((exists b, v = PBool b) \/
                           (exists z, v = PInt z) \/
                           (exists f, v = PFloat f)))).
Proof.
  destruct resume as [| | | | |l|d];
    try (split; [intros r H; discriminate H
                | intros e H; injection H as <-; left;
                  split; [reflexivity | intros d; discriminate]]).
  split.
  - intros r H. unfold make_row in H.
    destruct (skills_cell L (PDict d)) as [sk|e]; [|discriminate H].
    simpl in H. injection H as <-. split; [reflexivity | eauto].
  - intros e H. right. unfold make_row, skills_cell in H. simpl in H.
    destruct (Dict.get "skills" d) as [v|] eqn:Hs; [|discriminate H].
    destruct v as [|b|z|f|s|l|o]; simpl in H; try discriminate H;
      injection H as <-; (split; [reflexivity|]).
    + exists d, (PBool b). eauto 6.
    + exists d, (PInt z). eauto 6.
    + exists d, (PFloat f). eauto 7.
Qed.

(** *** The destination *)

Lemma make_row_five (resume : pyval) (r : row) :
  make_row L resume = Ok r -> five_cells r.
Proof.
  intros H. unfold make_row in H.
  destruct (skills_cell L resume) as [sk|e]; [|discriminate H]. simpl in H.
  destruct (experience_cell L resume) as [ex|e]; [|discriminate H]. simpl in H.
  destruct (text_cell L resume "name") as [n|e]; [|discriminate H]. simpl in H.
  destruct (text_cell L resume "email") as [m|e]; [|discriminate H]. simpl in H.
  destruct (text_cell L resume "mobile") as [p|e]; [|discriminate H]. simpl in H.
  injection H as <-. reflexivity.
Qed.

Lemma data_rows_five (resumes : list pyval) :
  Forall five_cells (data_rows L resumes).
Proof.
  induction resumes as [|resume rest IH]; simpl; [constructor|].
  destruct (make_row L resume) as [r|e] eqn:Hr; [|constructor].
  constructor; [exact (make_row_five _ _ Hr) | exact IH].
Qed.

Lemma batch_rows_five (parsed_json : pyval) :
  Forall five_cells (batch_rows L parsed_json).
Proof.
  unfold batch_rows. destruct (py_iter parsed_json); [|constructor].
  apply data_rows_five.
Qed.

(** What a call leaves at a path, whatever the content. *)
Lemma json_to_csv_at json_content output_dir fs (path : string) :
  Dict.get path (files (snd (json_to_csv L json_content output_dir fs))) =
    match json_loads L json_content with
    | Ok parsed_json =>
        if (open_fails fs (csv_path output_dir)
            || negb (String.eqb (csv_path output_dir) path))%bool
        then Dict.get path (files fs)
        else Some (rows_after L (Dict.get path (files fs)) parsed_json)
    | Raise _ => Dict.get path (files fs)
    end.
Proof.
  destruct (json_loads L json_content) as [parsed|e] eqn:Hj.
  - destruct (open_fails fs (csv_path output_dir)) eqn:Ho; simpl.
    + now rewrite json_to_csv_not_opened.
    + rewrite (json_to_csv_files _ _ _ _ _ Hj Ho). simpl.
      destruct (String.eqb_spec (csv_path output_dir) path) as [<-|Hne]; simpl.
      * apply dict_get_set_same.
      * now apply dict_get_set_other.
  - now rewrite (json_to_csv_unparsed _ _ _ _ _ Hj).
Qed.

(** The destination keeps the shape of a table: when every record of every
    file has five cells before a call, so it is after it, whatever the
    content of the call and however the call ends. *)
Theorem rows_keep_five_cells json_content output_dir fs :
  (forall path rows,
      Dict.get path (files fs) = Some rows -> Forall five_cells rows) ->
  forall path rows,
    Dict.get path (files (snd (json_to_csv L json_content output_dir fs)))
      = Some rows ->
    Forall five_cells rows.
Proof.
  intros Hbefore path rows. rewrite json_to_csv_at.
  destruct (json_loads L json_content) as [parsed|e]; [|apply Hbefore].
  destruct (_ || _)%bool; [apply Hbefore|].
  intros H. injection H as <-. unfold rows_after.
  destruct (Dict.get path (files fs)) as [old|] eqn:Hold.
  - apply Forall_app. split; [exact (Hbefore _ _ Hold) | apply batch_rows_five].
  - constructor; [reflexivity | apply batch_rows_five].
Qed.

Lemma write_rows_ok (resumes : list pyval) :
  forall f u f',
    write_rows L resumes f = (Ok u, f') ->
    exists rows, Forall2 (fun resume r => make_row L resume = Ok r) resumes rows.
Proof.
  induction resumes as [|resume rest IH]; intros f u f' H; simpl in H.
  - exists []. constructor.
  - destruct (make_row L resume) as [r|e] eqn:Hr; [|discriminate H].
    destruct (IH _ _ _ H) as [rows Hrows]. exists (r :: rows). now constructor.
Qed.

(** A call that reports success wrote every candidate: the content is
    JSON, the destination was opened, the parsed value could be iterated
    and every element of it converted; the destination holds what it held
    (or the header) followed by the records of all the candidates, in
    their order. *)
Theorem converted_means_all_written json_content output_dir fs :
  fst (json_to_csv L json_content output_dir fs) = Converted ->
  exists parsed_json resumes rows,
    json_loads L json_content = Ok parsed_json /\
    open_fails fs (csv_path output_dir) = false /\
    py_iter parsed_json = Ok resumes /\
    Forall2 (fun resume r => make_row L resume = Ok r) resumes rows /\
    Dict.get (csv_path output_dir)
             (files (snd (json_to_csv L json_content output_dir fs))) =
      Some (match Dict.get (csv_path output_dir) (files fs) with
            | Some old => old ++ rows
            | None => HEADER :: rows
            end)%list.
Proof.
  intros H. unfold json_to_csv in H.
  destruct (json_loads L json_content) as [parsed|e] eqn:Hj.
  - destruct (open_fails fs (csv_path output_dir)) eqn:Ho; [discriminate H|].
    unfold write_csv in H.
    destruct (py_iter parsed) as [resumes|e] eqn:Hi.
    + destruct (write_rows L resumes _) as [[u|e] f'] eqn:Hw;
        [|discriminate H].
      destruct (write_rows_ok _ _ _ _ Hw) as [rows Hrows].
      exists parsed, resumes, rows.
      repeat (split; [first [reflexivity | assumption]|]).
      rewrite json_to_csv_at, Hj, Ho, String.eqb_refl. simpl.
      unfold rows_after, batch_rows. rewrite Hi, (data_rows_all _ _ _ Hrows).
      reflexivity.
    + destruct (Dict.get _ _); discriminate H.
  - destruct (is_JSONDecodeError e); discriminate H.
Qed.

Lemma str_chars_aux_nonempty (s cur : string) : str_chars_aux cur s <> [].
Proof.
  revert cur. induction s as [|c s IH]; intros cur; simpl; [discriminate|].
  destruct (is_continuation c); [apply IH | discriminate].
Qed.

(** A content that is JSON but not an array of candidates writes no
    record.  A number, a boolean or [null] cannot be iterated
    ([TypeError]); an object with a key, and a string with a character,
    are iterated and their first element, a string, is no candidate
    ([AttributeError]).  The call still opens the destination: a file that
    did not exist is left with the header alone, a file that existed is
    left as it was. *)
Theorem wrong_shape_writes_no_record json_content output_dir fs parsed_json e :
  json_loads L json_content = Ok parsed_json ->
  open_fails fs (csv_path output_dir) = false ->
  (py_iter parsed_json = Raise e \/
   (e = AttributeError /\
    ((exists k v o, parsed_json = PDict ((k, v) :: o)) \/
     (exists c s, parsed_json = PStr (String c s))))) ->
  fst (json_to_csv L json_content output_dir fs) = ErrorConverting e /\
  Dict.get (csv_path output_dir)
           (files (snd (json_to_csv L json_content output_dir fs))) =
    Some (match Dict.get (csv_path output_dir) (files fs) with
          | Some old => old
          | None => [HEADER]
          end).
Proof.
  intros Hj Ho Hshape.
  assert (Hw : forall file_exists f,
             write_csv L file_exists parsed_json f =
               (Raise e, if file_exists then f else (f ++ [HEADER])%list)).
  { intros file_exists f. unfold write_csv.
    destruct Hshape as [Hi|[-> [(k & v & o & ->)|(c & s & ->)]]].
    - rewrite Hi. now destruct file_exists.
    - simpl. now destruct file_exists.
    - cbn [py_iter]. unfold str_chars.
      destruct (str_chars_aux (String c EmptyString) s) as [|ch chars] eqn:Hc.
      + now apply str_chars_aux_nonempty in Hc.
      + simpl. now destruct file_exists. }
  split.
  - unfold json_to_csv. rewrite Hj, Ho, Hw. reflexivity.
  - unfold json_to_csv. rewrite Hj, Ho, Hw. simpl.
    rewrite dict_get_set_same.
    destruct (Dict.get (csv_path output_dir) (files fs)); reflexivity.
Qed.

(** Nothing is deduplicated.  Running the same content twice on a
    destination that exists appends its data records twice. *)
Theorem rerun_appends_again json_content output_dir fs parsed_json rows :
  json_loads L json_content = Ok parsed_json ->
  open_fails fs (csv_path output_dir) = false ->
  Dict.get (csv_path output_dir) (files fs) = Some rows ->
  Dict.get (csv_path output_dir)
           (files (snd (json_to_csv L json_content output_dir
                          (snd (json_to_csv L json_content output_dir fs))))) =
    Some (rows ++ batch_rows L parsed_json ++ batch_rows L parsed_json)%list.
Proof.
  intros Hj Ho Hrows.
  rewrite json_to_csv_at, Hj, json_to_csv_open_fails, Ho, String.eqb_refl.
  simpl. rewrite json_to_csv_at, Hj, Ho, String.eqb_refl. simpl.
  rewrite Hrows. simpl. now rewrite <- app_assoc.
Qed.

End AggregatorMore.

(* ================================================================== *)
(** ** The second pass over the markdown artifacts *)

Section MarkdownFacts.

Context {W : Type}.
Variable md : MdServices W.

Implicit Types (x : W) (fs : filesystem).

(** The file system after a call: the one before, or the one
    [json_to_csv] leaves for the stripped text of the first block. *)
Lemma convert_md_to_json_fs file_path output_dir x fs :
  snd (convert_md_to_json md file_path output_dir x fs) = fs \/
  exists json_content,
    snd (convert_md_to_json md file_path output_dir x fs) =
      snd (json_to_csv (md_lib md) json_content output_dir fs).
Proof.
  unfold convert_md_to_json.
  destruct (read_text md file_path x) as [[content|e] x1]; [|now left].
  destruct (messages_create md _ x1) as [[blocks|e] x2]; [|now left].
  destruct (first_text blocks) as [text|e]; [|now left].
  right. exists (str_strip md text).
  now destruct (json_to_csv (md_lib md) (str_strip md text) output_dir fs).
Qed.


(** A call for a markdown file never harms the table.  Every file keeps
    the records it had, in order, with at most new ones after them; and
    when the call ends with "Error processing file" (the file cannot be
    read, the API call raises, the response has no first text block) the
    file system is as before. *)
Theorem md_pass_keeps_earlier_rows file_path output_dir x fs :
  (forall path rows,
      Dict.get path (files fs) = Some rows ->
      exists added,
        Dict.get path
          (files (snd (convert_md_to_json md file_path output_dir x fs)))
          = Some (rows ++ added)%list) /\
  (forall e,
      fst (fst (convert_md_to_json md file_path output_dir x fs))
        = ErrorProcessingFile e ->
      snd (convert_md_to_json md file_path output_dir x fs) = fs).
Proof.
  split.
  - intros path rows Hrows.
    destruct (convert_md_to_json_fs file_path output_dir x fs)
      as [->|[json_content ->]].
    + exists []. now rewrite app_nil_r.
    + rewrite json_to_csv_at.
      destruct (json_loads (md_lib md) json_content) as [parsed|e].
      * destruct (_ || _)%bool.
        -- exists []. now rewrite app_nil_r.
        -- rewrite Hrows. simpl. eauto.
      * exists []. now rewrite app_nil_r.
  - intros e. unfold convert_md_to_json.
    destruct (read_text md file_path x) as [[content|e1] x1]; [|reflexivity].
    destruct (messages_create md _ x1) as [[blocks|e2] x2]; [|reflexivity].
    destruct (first_text blocks) as [text|e3]; [|reflexivity].
    destruct (json_to_csv (md_lib md) (str_strip md text) output_dir fs).
    discriminate.
Qed.



End MarkdownFacts.

(* ================================================================== *)
(** ** The further properties on the scripted instances *)

Section MoreExamples.

Import Demo DemoMore.

(** The call to the model raises in the detection. *)
Lemma detection_errors_propagate_witness :
  llm_invoke services (SPLIT_PROMPT ++ nl ++ nl ++ "doc") detector_raises
    = (Raise (OtherException "timeout"),
       mkState ["a.pdf"] [] [] (Ok SplitOther)) /\
  check_multiple_resumes services "doc" (start detector_raises) =
    (Raise (OtherException "timeout"),
     mkWorld (mkState ["a.pdf"] [] [] (Ok SplitOther))
             ([] ++ [CallLLM (SPLIT_PROMPT ++ nl ++ nl ++ "doc")])).
Proof.
  split; [reflexivity|].
  exact (proj1 (detection_errors_propagate services "doc" (start detector_raises))
           (OtherException "timeout") (mkState ["a.pdf"] [] [] (Ok SplitOther))
           eq_refl).
Defined.

(** The detector answered with [[]]. *)
Lemma non_object_detection_fails_the_file_witness :
  zerox_pdf services "a.pdf" "out" detector_answers_array
    = (Ok "text of a.pdf", detector_answers_array) /\
  llm_invoke services (SPLIT_PROMPT ++ nl ++ nl ++ "text of a.pdf")
             detector_answers_array
    = (Ok "[]", mkState ["a.pdf"] [] [] (Ok SplitOther)) /\
  json_loads services "[]" = Ok (PList []) /\
  (forall d, PList [] <> PDict d) /\
  process_pdf_file services "a.pdf" "out" (start detector_answers_array) =
    (Ok [PDict []],
     mkWorld (mkState ["a.pdf"] [] [] (Ok SplitOther))
             (([] ++ [CallTranscribe "a.pdf" "out"])
                ++ [CallLLM (SPLIT_PROMPT ++ nl ++ nl ++ "text of a.pdf")])).
Proof.
  assert (Hv : forall d, PList [] <> PDict d) by (intros d H; discriminate H).
  split; [reflexivity|]. split; [reflexivity|]. split; [reflexivity|].
  split; [exact Hv|].
  exact (non_object_detection_fails_the_file services "a.pdf" "out"
           (start detector_answers_array) "text of a.pdf" detector_answers_array
           "[]" (mkState ["a.pdf"] [] [] (Ok SplitOther)) (PList [])
           eq_refl eq_refl eq_refl Hv).
Defined.

(** Several resumes announced, no segment returned. *)
Lemma empty_split_gives_no_record_witness :
  zerox_pdf services "a.pdf" "out" nothing_split
    = (Ok "text of a.pdf", nothing_split) /\
  llm_invoke services (SPLIT_PROMPT ++ nl ++ nl ++ "text of a.pdf") nothing_split
    = (Ok three_resumes, mkState ["a.pdf"] [] [] (Ok (SplitList []))) /\
  json_loads services three_resumes
    = Ok (PDict [("multiple_resumes", PBool true); ("resume_count", PInt 3)]) /\
  truthy (PBool true) = true /\
  zerox_split services "text of a.pdf" (mkState ["a.pdf"] [] [] (Ok (SplitList [])))
    = (Ok (SplitList []), mkState ["a.pdf"] [] [] (Ok (SplitList []))) /\
  process_pdf_file services "a.pdf" "out" (start nothing_split) =
    (Ok [],
     mkWorld (mkState ["a.pdf"] [] [] (Ok (SplitList [])))
             ((([] ++ [CallTranscribe "a.pdf" "out"])
                 ++ [CallLLM (SPLIT_PROMPT ++ nl ++ nl ++ "text of a.pdf")])
                ++ [CallSplit "text of a.pdf"])).
Proof.
  split; [reflexivity|]. split; [reflexivity|].
  split; [vm_compute; reflexivity|]. split; [reflexivity|].
  split; [reflexivity|].
  refine (empty_split_gives_no_record services "a.pdf" "out"
            (start nothing_split) "text of a.pdf" nothing_split
            three_resumes (mkState ["a.pdf"] [] [] (Ok (SplitList [])))
            [("multiple_resumes", PBool true); ("resume_count", PInt 3)]
            (mkState ["a.pdf"] [] [] (Ok (SplitList [])))
            eq_refl eq_refl _ eq_refl eq_refl).
  vm_compute. reflexivity.
Defined.

Lemma answers_of_second_answer_object :
  answers_with_objects services [PStr "r1"; PStr "r2"] segments_chosen.
Proof.
  split; [|split; [|exact I]].
  - intros response x' v Hllm Hjson. vm_compute in Hllm.
    injection Hllm as <- _. vm_compute in Hjson. discriminate Hjson.
  - intros response x' v Hllm Hjson. vm_compute in Hllm.
    injection Hllm as <- _. vm_compute in Hjson.
    injection Hjson as <-. now exists [].
Defined.

(** Two segments: two calls to the model, in order. *)
Lemma extraction_is_sequential_witness :
  answers_with_objects services [PStr "r1"; PStr "r2"] segments_chosen /\
  exists records w',
    process_segments services 1 [PStr "r1"; PStr "r2"] [] segments_chosen
      = (Ok records, w') /\
    List.length records = List.length [PStr "r1"; PStr "r2"] /\
    calls w' =
      (calls segments_chosen
         ++ extraction_calls services [PStr "r1"; PStr "r2"])%list.
Proof.
  split; [exact answers_of_second_answer_object|].
  exact (extraction_is_sequential services [PStr "r1"; PStr "r2"] segments_chosen
           answers_of_second_answer_object).
Defined.

Lemma answers_of_one_named :
  answers_with_objects services [PStr "text of a.pdf"] named_chosen.
Proof.
  split; [|exact I].
  intros response x' v Hllm Hjson. vm_compute in Hllm.
  injection Hllm as <- _. vm_compute in Hjson.
  injection Hjson as <-. eauto.
Defined.

(** An answer with a name and an index of its own: the name stays, the
    index is replaced. *)
Lemma record_keeps_the_answer_witness :
  answers_with_objects services [PStr "text of a.pdf"] named_chosen /\
  exists records w',
    process_segments services 1 [PStr "text of a.pdf"] [] named_chosen
      = (Ok records, w') /\
    forall (k : nat) (resume_text : pyval),
      nth_error [PStr "text of a.pdf"] k = Some resume_text ->
      forall response x' d,
        llm_invoke services (format_messages services resume_text)
          (ext (world_before_segment services k [PStr "text of a.pdf"]
                  named_chosen)) = (Ok response, x') ->
        json_loads services response = Ok (PDict d) ->
        exists d',
          nth_error records k = Some (PDict d') /\
          d' = Dict.set "resume_index" (PInt (Z.of_nat k + 1)) d /\
          Dict.get "resume_index" d' = Some (PInt (Z.of_nat k + 1)) /\
          (forall key, key <> "resume_index" -> Dict.get key d' = Dict.get key d) /\
          (forall key, In key (Dict.keys d) -> In key (Dict.keys d')).
Proof.
  split; [exact answers_of_one_named|].
  exact (record_keeps_the_answer services [PStr "text of a.pdf"] named_chosen
           answers_of_one_named).
Defined.

(** The second of two segments answered with [[]]. *)
Lemma non_object_answer_stops_the_file_witness :
  file_segments services "a.pdf" "out" (start second_answer_array)
                ([PStr "r1"] ++ PStr "r2" :: []) array_chosen /\
  answers_with_objects services [PStr "r1"] array_chosen /\
  llm_invoke services (format_messages services (PStr "r2"))
    (ext (world_before_segment services (List.length [PStr "r1"])
            ([PStr "r1"] ++ PStr "r2" :: []) array_chosen))
    = (Ok "[]", mkState ["a.pdf"] [] []
                        (Ok (SplitList [PStr "r1"; PStr "r2"]))) /\
  json_loads services "[]" = Ok (PList []) /\
  (forall d, PList [] <> PDict d) /\
  process_pdf_file services "a.pdf" "out" (start second_answer_array) =
    (Ok [PDict []],
     mkWorld (mkState ["a.pdf"] [] [] (Ok (SplitList [PStr "r1"; PStr "r2"])))
             (calls array_chosen
                ++ extraction_calls services ([PStr "r1"] ++ [PStr "r2"]))).
Proof.
  assert (Hseg : file_segments services "a.pdf" "out" (start second_answer_array)
                   ([PStr "r1"] ++ PStr "r2" :: []) array_chosen)
    by (vm_compute; reflexivity).
  assert (Hobj : answers_with_objects services [PStr "r1"] array_chosen).
  { split; [|exact I]. intros response x' v Hllm Hjson. vm_compute in Hllm.
    injection Hllm as <- _. vm_compute in Hjson. discriminate Hjson. }
  assert (Hllm : llm_invoke services (format_messages services (PStr "r2"))
            (ext (world_before_segment services (List.length [PStr "r1"])
                    ([PStr "r1"] ++ PStr "r2" :: []) array_chosen))
            = (Ok "[]", mkState ["a.pdf"] [] []
                                (Ok (SplitList [PStr "r1"; PStr "r2"]))))
    by (vm_compute; reflexivity).
  assert (Hv : forall d, PList [] <> PDict d) by (intros d H; discriminate H).
  split; [exact Hseg|]. split; [exact Hobj|]. split; [exact Hllm|].
  split; [reflexivity|]. split; [exact Hv|].
  exact (non_object_answer_stops_the_file services "a.pdf" "out"
           (start second_answer_array) [PStr "r1"] (PStr "r2") [] array_chosen
           "[]" _ (PList []) Hseg Hobj Hllm eq_refl Hv).
Defined.

Lemma no_dup_a_b : NoDup ["a.pdf"; "b.pdf"].
Proof.
  constructor.
  - simpl. intros [H|[]]. discriminate H.
  - constructor; [simpl; tauto | constructor].
Defined.

(** Two files, the first unreadable: the keys are in the order of the
    listing. *)
Lemma results_in_listing_order_witness :
  mkdir services "out" first_unreadable = (Ok tt, first_unreadable) /\
  glob_pdf services "resumes" first_unreadable
    = (Ok ["a.pdf"; "b.pdf"], first_unreadable) /\
  NoDup ["a.pdf"; "b.pdf"] /\
  exists results w',
    process_multiple_files services "resumes" "out" (start first_unreadable)
      = (Ok results, w') /\
    Dict.keys results = ["a.pdf"; "b.pdf"].
Proof.
  split; [reflexivity|]. split; [reflexivity|]. split; [exact no_dup_a_b|].
  exact (results_in_listing_order services "resumes" "out"
           (start first_unreadable) tt first_unreadable ["a.pdf"; "b.pdf"]
           first_unreadable eq_refl eq_refl no_dup_a_b).
Defined.

(** The output directory cannot be made. *)
Lemma batch_raises_only_before_the_files_witness :
  mkdir locked "out" first_unreadable = (Raise OSError, first_unreadable) /\
  process_multiple_files locked "resumes" "out" (start first_unreadable) =
    (Raise OSError, mkWorld first_unreadable ([] ++ [CallMkdir "out"])).
Proof.
  split; [reflexivity|].
  exact (proj1 (batch_raises_only_before_the_files locked "resumes" "out"
                  (start first_unreadable))
           OSError first_unreadable eq_refl).
Defined.

(** Two files, the first unreadable: both are sent to the transcription
    service. *)
Lemma each_file_is_transcribed_once_witness :
  mkdir services "out" first_unreadable = (Ok tt, first_unreadable) /\
  glob_pdf services "resumes" first_unreadable
    = (Ok ["a.pdf"; "b.pdf"], first_unreadable) /\
  filter is_transcribe
         (calls (snd (process_multiple_files services "resumes" "out"
                        (start first_unreadable)))) =
    (filter is_transcribe []
       ++ map (fun f => CallTranscribe f "out") ["a.pdf"; "b.pdf"])%list.
Proof.
  split; [reflexivity|]. split; [reflexivity|].
  exact (each_file_is_transcribed_once services "resumes" "out"
           (start first_unreadable) tt first_unreadable ["a.pdf"; "b.pdf"]
           first_unreadable eq_refl eq_refl).
Defined.

(** A candidate with a name, a null email and a mobile of 0. *)
Lemma text_cell_is_null_safe_witness :
  Dict.get "mobile" [("name", PStr "Ada"); ("email", PNone); ("mobile", PInt 0)]
    = Some (PInt 0) /\
  truthy (PInt 0) = false /\
  text_cell pylib
      (PDict [("name", PStr "Ada"); ("email", PNone); ("mobile", PInt 0)])
      "mobile" = Ok EmptyString.
Proof.
  split; [reflexivity|]. split; [reflexivity|].
  exact (proj1 (proj2 (proj2 (text_cell_is_null_safe pylib
                  [("name", PStr "Ada"); ("email", PNone); ("mobile", PInt 0)]
                  "mobile")))
           (PInt 0) eq_refl eq_refl).
Defined.

(** An experience of two lines. *)
Lemma experience_cell_is_one_line_witness :
  Dict.get "experience" [("experience", PStr ("Acme" ++ nl ++ "Globex"))]
    = Some (PStr ("Acme" ++ nl ++ "Globex")) /\
  experience_cell pylib (PDict [("experience", PStr ("Acme" ++ nl ++ "Globex"))])
    = Ok (replace_char newline " " ("Acme" ++ nl ++ "Globex")) /\
  String.length (replace_char newline " " ("Acme" ++ nl ++ "Globex"))
    = String.length ("Acme" ++ nl ++ "Globex").
Proof.
  split; [reflexivity|].
  exact (proj1 (proj2 (experience_cell_is_one_line pylib
                  [("experience", PStr ("Acme" ++ nl ++ "Globex"))]))
           ("Acme" ++ nl ++ "Globex") eq_refl).
Defined.

(** Skills given as the string [Go]. *)
Lemma skills_string_is_split_witness :
  Dict.get "skills" [("skills", PStr "Go")] = Some (PStr "Go") /\
  skills_cell pylib (PDict [("skills", PStr "Go")]) = Ok (join ";" (str_chars "Go")).
Proof.
  split; [reflexivity|].
  exact (proj1 (skills_string_is_split pylib [("skills", PStr "Go")])
           "Go" eq_refl).
Defined.

(** A candidate whose skills are the number 3. *)
Lemma make_row_fails_on_shape_only_witness :
  make_row pylib (PDict [("skills", PInt 3)]) = Raise TypeError /\
  ((TypeError = AttributeError /\
    forall d, PDict [("skills", PInt 3)] <> PDict d) \/
   (TypeError = TypeError /\
    exists d v, PDict [("skills", PInt 3)] = PDict d /\
                Dict.get "skills" d = Some v /\
                ((exists b, v = PBool b) \/
                 (exists z, v = PInt z) \/
                 (exists f, v = PFloat f)))).
Proof.
  split; [reflexivity|].
  exact (proj2 (make_row_fails_on_shape_only pylib (PDict [("skills", PInt 3)]))
           TypeError eq_refl).
Defined.

Lemma one_record_written_five :
  forall path rows,
    Dict.get path (files one_record_written) = Some rows ->
    Forall five_cells rows.
Proof.
  intros path rows H. simpl in H.
  destruct (String.eqb path (csv_path "out")); [|discriminate H].
  injection H as <-. repeat constructor.
Defined.

(** A table of five-cell records, and a call that fails half way. *)
Lemma rows_keep_five_cells_witness :
  (forall path rows,
      Dict.get path (files one_record_written) = Some rows ->
      Forall five_cells rows) /\
  Dict.get (csv_path "out")
           (files (snd (json_to_csv pylib "[{}, 5]" "out" one_record_written)))
    = Some [HEADER; ["Ada"; "a@b.c"; "1"; "5 years"; "Go"];
            [EmptyString; EmptyString; EmptyString; EmptyString; EmptyString]] /\
  Forall five_cells
         [HEADER; ["Ada"; "a@b.c"; "1"; "5 years"; "Go"];
          [EmptyString; EmptyString; EmptyString; EmptyString; EmptyString]].
Proof.
  split; [exact one_record_written_five|].
  assert (H : Dict.get (csv_path "out")
                (files (snd (json_to_csv pylib "[{}, 5]" "out" one_record_written)))
              = Some [HEADER; ["Ada"; "a@b.c"; "1"; "5 years"; "Go"];
                      [EmptyString; EmptyString; EmptyString; EmptyString;
                       EmptyString]])
    by (vm_compute; reflexivity).
  split; [exact H|].
  exact (rows_keep_five_cells pylib "[{}, 5]" "out" one_record_written
           one_record_written_five (csv_path "out") _ H).
Defined.

(** A call that converts its only candidate. *)
Lemma converted_means_all_written_witness :
  fst (json_to_csv pylib "[{}]" "out" no_files) = Converted /\
  exists parsed_json resumes rows,
    json_loads pylib "[{}]" = Ok parsed_json /\
    open_fails no_files (csv_path "out") = false /\
    py_iter parsed_json = Ok resumes /\
    Forall2 (fun resume r => make_row pylib resume = Ok r) resumes rows /\
    Dict.get (csv_path "out")
             (files (snd (json_to_csv pylib "[{}]" "out" no_files))) =
      Some (match Dict.get (csv_path "out") (files no_files) with
            | Some old => old ++ rows
            | None => HEADER :: rows
            end)%list.
Proof.
  assert (H : fst (json_to_csv pylib "[{}]" "out" no_files) = Converted)
    by (vm_compute; reflexivity).
  split; [exact H|].
  exact (converted_means_all_written pylib "[{}]" "out" no_files H).
Defined.

(** The content is a single object, not an array. *)
Lemma wrong_shape_writes_no_record_witness :
  json_loads pylib named_answer
    = Ok (PDict [("name", PStr "Ada"); ("resume_index", PInt 7)]) /\
  open_fails no_files (csv_path "out") = false /\
  fst (json_to_csv pylib named_answer "out" no_files)
    = ErrorConverting AttributeError /\
  Dict.get (csv_path "out")
           (files (snd (json_to_csv pylib named_answer "out" no_files)))
    = Some [HEADER].
Proof.
  assert (Hj : json_loads pylib named_answer
               = Ok (PDict [("name", PStr "Ada"); ("resume_index", PInt 7)]))
    by (vm_compute; reflexivity).
  split; [exact Hj|]. split; [reflexivity|].
  refine (wrong_shape_writes_no_record pylib named_answer "out" no_files
            (PDict [("name", PStr "Ada"); ("resume_index", PInt 7)])
            AttributeError Hj eq_refl _).
  right. split; [reflexivity|]. left. eauto.
Defined.

(** The same candidate array twice on a table that exists. *)
Lemma rerun_appends_again_witness :
  json_loads pylib "[{}]" = Ok (PList [PDict []]) /\
  open_fails one_record_written (csv_path "out") = false /\
  Dict.get (csv_path "out") (files one_record_written)
    = Some [HEADER; ["Ada"; "a@b.c"; "1"; "5 years"; "Go"]] /\
  Dict.get (csv_path "out")
           (files (snd (json_to_csv pylib "[{}]" "out"
                          (snd (json_to_csv pylib "[{}]" "out"
                                  one_record_written))))) =
    Some ([HEADER; ["Ada"; "a@b.c"; "1"; "5 years"; "Go"]]
            ++ batch_rows pylib (PList [PDict []])
            ++ batch_rows pylib (PList [PDict []]))%list.
Proof.
  split; [vm_compute; reflexivity|]. split; [reflexivity|].
  split; [reflexivity|].
  refine (rerun_appends_again pylib "[{}]" "out" one_record_written
            (PList [PDict []]) _ _ eq_refl eq_refl).
  vm_compute. reflexivity.
Defined.

(** A markdown file that cannot be read, on a table that exists. *)
Lemma md_pass_keeps_earlier_rows_witness :
  fst (fst (convert_md_to_json DemoMd.services "out/missing.md" "out"
              DemoMd.one_file one_record_written))
    = ErrorProcessingFile OSError /\
  snd (convert_md_to_json DemoMd.services "out/missing.md" "out"
         DemoMd.one_file one_record_written) = one_record_written.
Proof.
  assert (H : fst (fst (convert_md_to_json DemoMd.services "out/missing.md" "out"
                          DemoMd.one_file one_record_written))
              = ErrorProcessingFile OSError) by reflexivity.
  split; [exact H|].
  exact (proj2 (md_pass_keeps_earlier_rows DemoMd.services
                  "out/missing.md" "out" DemoMd.one_file one_record_written)
           OSError H).
Defined.


End MoreExamples.
